(** * Galileo Decile Tracker: filename classifier, schema normaliser,
      record enricher and filter engine of [Newtest3/app.py]

    The development embeds the pure core of [app.py] (lines 162-197 and
    249-532) and proves the properties its specification states about it.

    Python values are embedded as follows.
    - A [str] is a [string]; its characters are read as the code points
      U+0000..U+00FF.  The character classes of [re] and the methods
      [str.lower] and [str.strip] are written out for that range.
    - The three date patterns and the keyword pattern are embedded as the
      functions that compute their match at a given position; lemmas
      [pattern1_exact], [pattern1_sound], [pattern3_exact], [pattern3_sound]
      and [word_search_from_spec] relate them to the way the regular
      expressions read.
    - A [dict] that is only looked up is a [gmap]; a [dict] that is iterated
      keeps its insertion order as an association list.
    - A pandas [DataFrame] is a list of row labels and a list of named
      columns; a raised exception is the [Raise] case of [result].  The
      pandas operations follow pandas 1.x and 2.x.

    - The dtype of a column is the one its cells give it: [int64] for
      numbers only, [float64] with missing values, [object] with texts.
    - [datetime.now()] is a parameter of the functions that read the
      clock; [dt - relativedelta(months=n)] follows dateutil.

    The file has four parts: the embedding of the code, the predicates the
    properties are stated with, the facts about the properties of the
    specification, component by component, and further facts the code shows
    (the other date and region rules, the normaliser and the enricher on
    every table, what the filters keep, their order, and the time
    period). *)

From Stdlib Require Import ZArith NArith String Ascii List Bool Lia.
From stdpp Require Import base option list sorting strings gmap.

Local Open Scope Z_scope.

(* ================================================================== *)
(** * Python strings                                                    *)
(* ================================================================== *)

Module PyStr.

(** The characters of a string, as a list of code points. *)
Definition chars (s : string) : list ascii := list_ascii_of_string s.
Definition of_chars (l : list ascii) : string := string_of_list_ascii l.

Definition code (c : ascii) : N := N_of_ascii c.

Definition between (lo hi : N) (c : ascii) : bool :=
  ((lo <=? code c) && (code c <=? hi))%N.

(** [\d]: the decimal digits; below U+0100 these are [0-9]. *)
Definition is_digit (c : ascii) : bool := between 48 57 c.

(** [[a-zA-Z]] under [re.IGNORECASE]; below U+0100 case folding adds
    nothing to the ASCII letters. *)
Definition is_alpha (c : ascii) : bool := between 65 90 c || between 97 122 c.

(** [\s] and [str.isspace]: TAB..CR, FS..US, SPACE, NEL and NBSP. *)
Definition is_space (c : ascii) : bool :=
  between 9 13 c || between 28 32 c
  || (code c =? 133)%N || (code c =? 160)%N.

(** [\w]: alphanumeric code points and the underscore. *)
Definition is_word (c : ascii) : bool :=
  is_digit c || is_alpha c || (code c =? 95)%N
  || (code c =? 170)%N || between 178 179 c || (code c =? 181)%N
  || between 185 186 c || between 188 190 c
  || between 192 214 c || between 216 246 c || between 248 255 c.

(** [str.lower] on one character: [A-Z] and the capital letters
    U+00C0..U+00DE (but not the multiplication sign U+00D7). *)
Definition lower_char (c : ascii) : ascii :=
  if between 65 90 c
     || (between 192 222 c && negb (code c =? 215)%N)
  then ascii_of_N (code c + 32)
  else c.

Definition lower (s : string) : string := of_chars (map lower_char (chars s)).

(** [str.strip()]: whitespace removed at both ends. *)
Fixpoint lstrip (l : list ascii) : list ascii :=
  match l with
  | c :: t => if is_space c then lstrip t else l
  | [] => []
  end.

Definition strip (s : string) : string :=
  of_chars (rev (lstrip (rev (lstrip (chars s))))).

(** [p] is a prefix of [s]. *)
Fixpoint starts_with (p s : list ascii) : bool :=
  match p, s with
  | [], _ => true
  | a :: p', b :: s' => bool_decide (a = b) && starts_with p' s'
  | _ :: _, [] => false
  end.

(** [sub in s] on character lists. *)
Fixpoint occurs (sub s : list ascii) : bool :=
  starts_with sub s ||
  match s with
  | [] => false
  | _ :: t => occurs sub t
  end.

(** [sub in s]. *)
Definition str_in (sub s : string) : bool := occurs (chars sub) (chars s).

(** [int(s)] for a string of decimal digits, most significant first. *)
Definition digit_val (c : ascii) : Z := Z.of_N (code c) - 48.

Definition int_of_digits (l : list ascii) : Z :=
  fold_left (fun acc c => 10 * acc + digit_val c) l 0.

(** The longest prefix of [l] whose elements satisfy [p], and what
    follows it: how a greedy [c+] consumes its input. *)
Fixpoint take_while (p : ascii -> bool) (l : list ascii) : list ascii :=
  match l with
  | c :: t => if p c then c :: take_while p t else []
  | [] => []
  end.

Fixpoint drop_while (p : ascii -> bool) (l : list ascii) : list ascii :=
  match l with
  | c :: t => if p c then drop_while p t else l
  | [] => []
  end.

Definition is_nil {A} (l : list A) : bool :=
  match l with [] => true | _ :: _ => false end.

End PyStr.

Import PyStr.

(* ================================================================== *)
(** * Calendar dates                                                    *)
(* ================================================================== *)

(** A [datetime.datetime]; [tod] is the time of day in microseconds. *)
Record datetime := mk_datetime { year : Z; month : Z; day : Z; tod : Z }.

Global Instance datetime_eq_dec : EqDecision datetime.
Proof. solve_decision. Defined.

Definition is_leap (y : Z) : bool :=
  (y mod 4 =? 0) && (negb (y mod 100 =? 0) || (y mod 400 =? 0)).

Definition days_in_month (y m : Z) : Z :=
  match m with
  | 1 | 3 | 5 | 7 | 8 | 10 | 12 => 31
  | 4 | 6 | 9 | 11 => 30
  | 2 => if is_leap y then 29 else 28
  | _ => 0
  end.

(** The arguments [datetime(y, m, d)] accepts (MINYEAR = 1, MAXYEAR = 9999). *)
Definition valid_date (y m d : Z) : bool :=
  (1 <=? y) && (y <=? 9999) && (1 <=? m) && (m <=? 12)
  && (1 <=? d) && (d <=? days_in_month y m).

(** [datetime(y, m, d)]; [None] stands for the [ValueError] it raises. *)
Definition datetime_new (y m d : Z) : option datetime :=
  if valid_date y m d then Some (mk_datetime y m d 0) else None.

(** Order of two datetimes. *)
Definition datetime_leb (a b : datetime) : bool :=
  (year a <? year b) || ((year a =? year b) &&
  ((month a <? month b) || ((month a =? month b) &&
  ((day a <? day b) || ((day a =? day b) && (tod a <=? tod b)))))).

(* ================================================================== *)
(** * Configuration tables (app.py, lines 162-197)                      *)
(* ================================================================== *)

(** [REGION_MAPPINGS], in the order the dict literal lists its items: the
    classifier iterates over it. *)
Definition REGION_MAPPINGS : list (string * list string) :=
  [ ("US", ["s&p500"; "s&p 500"; "sp500"; "us"; "usa"; "nasdaq"; "russell";
            "dow"; "american"]);
    ("Europe", ["europe"; "european"; "eu"; "stoxx"; "euro stoxx";
                "ftse developed europe"; "msci europe"]);
    ("UK", ["uk"; "united kingdom"; "ftse"; "ftse100"; "ftse 100"; "ftse250";
            "british"; "london"]);
    ("APAC Ex Japan", ["apac ex jpy"; "apac ex japan"; "apac"; "asia pacific";
                       "asia"; "asian"; "pacific"; "emerging asia"; "asean"]);
    ("Japan", ["japan"; "japanese"; "nikkei"; "topix"; "tokyo"]);
    ("China", ["china"; "chinese"; "shanghai"; "shenzhen"; "hang seng"; "hsi";
               "csi"; "a-shares"; "h-shares"]);
    ("Global", ["global"; "world"; "msci world"; "acwi"; "all country";
                "worldwide"]);
    ("Global Ex US", ["global ex us"; "global ex-us"; "world ex us";
                      "international"; "eafe"; "ex-us"; "non-us"]) ].

(** [REGION_OPTIONS]: what the region selectors offer. *)
Definition REGION_OPTIONS : list string :=
  ["All Regions"; "US"; "Europe"; "UK"; "APAC Ex Japan"; "Japan"; "China";
   "Global"; "Global Ex US"].

Definition MONTH_ITEMS : list (string * Z) :=
  [ ("jan", 1); ("january", 1);
    ("feb", 2); ("february", 2);
    ("mar", 3); ("march", 3);
    ("apr", 4); ("april", 4);
    ("may", 5);
    ("jun", 6); ("june", 6);
    ("jul", 7); ("july", 7);
    ("aug", 8); ("august", 8);
    ("sep", 9); ("sept", 9); ("september", 9);
    ("oct", 10); ("october", 10);
    ("nov", 11); ("november", 11);
    ("dec", 12); ("december", 12) ].

(** [MONTH_MAPPINGS]: month names and abbreviations, lower case. *)
Definition MONTH_MAPPINGS : gmap string Z := list_to_map MONTH_ITEMS.

(* ================================================================== *)
(** * Filename classifier (app.py, lines 249-321)                       *)
(* ================================================================== *)

Module Re.

(** [re.search]: the match at the leftmost position that has one.
    [at_head s] is the match of the pattern anchored at the head of [s]. *)
Fixpoint search {A} (at_head : list ascii -> option A) (s : list ascii)
  : option A :=
  match at_head s with
  | Some m => Some m
  | None =>
      match s with
      | [] => None
      | _ :: t => search at_head t
      end
  end.

(** [([a-zA-Z]+)\s+(\d{1,2})\s+(\d{4})] anchored at the head of [s],
    giving groups 1, 2 and 3.  Every greedy run is followed by a class
    disjoint from its own, so giving characters back never helps: group 1
    is the whole run of letters, and the digit run after the first blanks
    must be one or two digits long for [\s+] to follow [\d{1,2}].  Group 3
    is the four digits after the second blanks, whatever follows them. *)
Definition pattern1 (s : list ascii)
  : option (list ascii * list ascii * list ascii) :=
  let g1 := take_while is_alpha s in
  let s1 := drop_while is_alpha s in
  let ws1 := take_while is_space s1 in
  let s2 := drop_while is_space s1 in
  let g2 := take_while is_digit s2 in
  let s3 := drop_while is_digit s2 in
  let ws2 := take_while is_space s3 in
  let s4 := drop_while is_space s3 in
  let g3 := take 4 s4 in
  if negb (is_nil g1) && negb (is_nil ws1)
     && negb (is_nil g2) && (length g2 <=? 2)%nat
     && negb (is_nil ws2)
     && (length g3 =? 4)%nat && forallb is_digit g3
  then Some (g1, g2, g3)
  else None.

(** [(\d{4})-(\d{2})-(\d{2})] anchored at the head of [s]. *)
Definition pattern2 (s : list ascii)
  : option (list ascii * list ascii * list ascii) :=
  match s with
  | y1 :: y2 :: y3 :: y4 :: h1 :: m1 :: m2 :: h2 :: d1 :: d2 :: _ =>
      if forallb is_digit [y1; y2; y3; y4; m1; m2; d1; d2]
         && bool_decide (h1 = "-"%char) && bool_decide (h2 = "-"%char)
      then Some ([y1; y2; y3; y4], [m1; m2], [d1; d2])
      else None
  | _ => None
  end.

(** [(\d{4})(\d{2})(\d{2})] anchored at the head of [s]. *)
Definition pattern3 (s : list ascii)
  : option (list ascii * list ascii * list ascii) :=
  let w := take 8 s in
  if (length w =? 8)%nat && forallb is_digit w
  then Some (take 4 w, take 2 (drop 4 w), drop 6 w)
  else None.

(** [\b] between two neighbouring positions, [None] being an end of the
    string: exactly one side is a word character. *)
Definition is_word_at (c : option ascii) : bool :=
  match c with Some c => is_word c | None => false end.

Definition boundary (before after : option ascii) : bool :=
  xorb (is_word_at before) (is_word_at after).

(** [re.search(r'\b' + re.escape(kw) + r'\b', s)] succeeds; [prev] is the
    character before the head of [s]. *)
Fixpoint word_search_from (kw : list ascii) (prev : option ascii)
    (s : list ascii) : bool :=
  (starts_with kw s
   && boundary prev (head s)
   && boundary (last (option_list prev ++ kw)) (head (drop (length kw) s)))
  || match s with
     | [] => false
     | c :: t => word_search_from kw (Some c) t
     end.

Definition word_search (kw s : string) : bool :=
  word_search_from (chars kw) None (chars s).

End Re.

Definition int (g : list ascii) : Z := int_of_digits g.

(** The date a matched triple of groups (year, month, day) denotes. *)
Definition date_of_groups (g : list ascii * list ascii * list ascii)
  : option datetime :=
  let '(y, m, d) := g in datetime_new (int y) (int m) (int d).

Definition extract_date_from_filename (filename : string) : option datetime :=
  (* Pattern 1: Month Name Day Year *)
  let rule1 :=
    match Re.search Re.pattern1 (chars filename) with
    | Some (g1, g2, g3) =>
        let month_str := lower (of_chars g1) in
        let day := int g2 in
        let year := int g3 in
        match MONTH_MAPPINGS !! month_str with
        | Some month => datetime_new year month day
        | None => None
        end
    | None => None
    end in
  match rule1 with
  | Some d => Some d
  | None =>
      (* Pattern 2: YYYY-MM-DD *)
      match Re.search Re.pattern2 (chars filename) ≫= date_of_groups with
      | Some d => Some d
      | None =>
          (* Pattern 3: YYYYMMDD *)
          Re.search Re.pattern3 (chars filename) ≫= date_of_groups
      end
  end.

(** The first region of the table one of whose keywords occurs in
    [filename_lower] between word boundaries. *)
Fixpoint first_region (table : list (string * list string))
    (filename_lower : string) : option string :=
  match table with
  | [] => None
  | (region, keywords) :: rest =>
      if existsb (fun keyword => Re.word_search keyword filename_lower) keywords
      then Some region
      else first_region rest filename_lower
  end.

Definition extract_region_from_filename (filename : string) : string :=
  let filename_lower := lower filename in
  if str_in "global ex us" filename_lower || str_in "global ex-us" filename_lower
  then "Global Ex US"
  else if str_in "apac ex jpy" filename_lower
          || str_in "apac ex japan" filename_lower
  then "APAC Ex Japan"
  else if str_in "s&p500" filename_lower || str_in "s&p 500" filename_lower
          || str_in "sp500" filename_lower
  then "US"
  else default "Unclassified" (first_region REGION_MAPPINGS filename_lower).

(** The dict [parse_file_metadata] returns. *)
Record FileMetadata := mk_metadata {
  md_filename : string;
  md_date : option datetime;
  md_region : string
}.

Definition parse_file_metadata (filename : string) : FileMetadata :=
  {| md_filename := filename;
     md_date := extract_date_from_filename filename;
     md_region := extract_region_from_filename filename |}.

(* ================================================================== *)
(** * Exceptions                                                        *)
(* ================================================================== *)

(** What a modelled call can raise.  [OutOfModel] marks a run that leaves
    the fragment of pandas embedded here: a column label that occurs twice,
    a search term that is not a literal regular expression, a text or
    number where a timestamp is converted, a timestamp in arithmetic, a
    timestamp cell outside the nanosecond range, and an integer that the
    dtype of its column does not hold exactly. *)
Inductive exn :=
| KeyError (column : string)
| TypeError
| IndexingError
| OutOfBoundsDatetime
| OutOfModel.

Inductive result (A : Type) :=
| Ok (a : A)
| Raise (e : exn).
Global Arguments Ok {A} a.
Global Arguments Raise {A} e.

Global Instance result_ret : MRet result := @Ok.
Global Instance result_bind : MBind result := fun A B f m =>
  match m with
  | Ok a => f a
  | Raise e => Raise e
  end.

(* ================================================================== *)
(** * Data frames                                                       *)
(* ================================================================== *)

Module Pandas.

(** One cell: a missing value, a number, a text or a timestamp. *)
Inductive cell :=
| NaN
| Num (n : Z)
| Str (s : string)
| Stamp (d : datetime).

Global Instance cell_eq_dec : EqDecision cell.
Proof. solve_decision. Defined.

(** A frame: the row labels and the columns, each a header with one cell
    per row.  The frames of this program carry pairwise distinct labels:
    [pd.concat(..., ignore_index=True)] numbers the rows 0, 1, 2, ... and
    a boolean selection keeps a sub-sequence of them. *)
Record DataFrame := mk_frame {
  index : list nat;
  data : list (string * list cell)
}.

Global Instance DataFrame_eq_dec : EqDecision DataFrame.
Proof. solve_decision. Defined.

Definition columns (df : DataFrame) : list string := map fst (data df).

(** [len(df)] *)
Definition len (df : DataFrame) : nat := length (index df).

(** [df.empty]: one of the two axes has length 0. *)
Definition empty (df : DataFrame) : bool :=
  is_nil (index df) || is_nil (data df).

(** Every column has one cell per row. *)
Definition wf (df : DataFrame) : Prop :=
  Forall (fun p => length p.2 = len df) (data df).

(** [c in df.columns] *)
Definition has_column (df : DataFrame) (c : string) : bool :=
  bool_decide (c ∈ columns df).

(** [df[c]]: the column of that name; [KeyError] when there is none. *)
Definition getitem (df : DataFrame) (c : string) : result (list cell) :=
  match filter (fun p => p.1 = c) (data df) with
  | [] => Raise (KeyError c)
  | [(_, v)] => Ok v
  | _ :: _ :: _ => Raise OutOfModel
  end.

(** [df[c] = v]: the column is replaced where the header exists and
    appended at the right otherwise. *)
Definition setitem (df : DataFrame) (c : string) (v : list cell)
  : DataFrame :=
  if has_column df c
  then mk_frame (index df)
         (map (fun p => if bool_decide (p.1 = c) then (c, v) else p) (data df))
  else mk_frame (index df) (data df ++ [(c, v)]).

(** [df[c] = x] for a scalar [x]: the same cell in every row. *)
Definition setitem_scalar (df : DataFrame) (c : string) (x : cell)
  : DataFrame :=
  setitem df c (replicate (len df) x).

(** The elements of [l] at the positions where [mask] is true. *)
Fixpoint keep {A} (mask : list bool) (l : list A) : list A :=
  match mask, l with
  | b :: mask', x :: l' => if b then x :: keep mask' l' else keep mask' l'
  | _, _ => []
  end.

(** [df[mask]] for a mask that is positioned like the rows of [df]. *)
Definition select_rows (df : DataFrame) (mask : list bool) : DataFrame :=
  mk_frame (keep mask (index df))
           (map (fun p => (p.1, keep mask p.2)) (data df)).

(** A boolean Series with its own row labels. *)
Record BoolSeries := mk_series {
  s_index : list nat;
  s_values : list bool
}.

(** The value a Series holds at a label. *)
Fixpoint at_label (labels : list nat) (values : list bool) (l : nat)
  : option bool :=
  match labels, values with
  | k :: labels', b :: values' =>
      if bool_decide (k = l) then Some b else at_label labels' values' l
  | _, _ => None
  end.

Definition loc (s : BoolSeries) (l : nat) : option bool :=
  at_label (s_index s) (s_values s) l.

(** The labels of either list, sorted and without repetition: the index
    an outer alignment of two Series produces. *)
Definition union_labels (a b : list nat) : list nat :=
  merge_sort Nat.le (remove_dups (a ++ b)).

(** [left | right] on boolean Series.  With equal indexes the values are
    combined position by position.  Otherwise both sides are aligned on
    the union of their labels, a label that a side lacks being NaN there:
    pandas replaces NaN on the right by False before the operation, and a
    NaN on the left makes the result NaN, which is then read as False. *)
Definition series_or (left right : BoolSeries) : BoolSeries :=
  if bool_decide (s_index left = s_index right)
  then mk_series (s_index left)
         (zip_with orb (s_values left) (s_values right))
  else
    let labels := union_labels (s_index left) (s_index right) in
    mk_series labels
      (map (fun l =>
              match loc left l with
              | Some a => a || default false (loc right l)
              | None => false
              end) labels).

(** [df[key]] for a boolean Series: a key whose index differs from the
    frame's is reindexed to it, and [IndexingError] is raised when the key
    lacks a label of the frame. *)
Definition getitem_bool (df : DataFrame) (key : BoolSeries)
  : result DataFrame :=
  if bool_decide (s_index key = index df)
  then Ok (select_rows df (s_values key))
  else
    mask ← mapM (fun l => match loc key l with
                          | Some b => Ok b
                          | None => Raise IndexingError
                          end) (index df);
    Ok (select_rows df mask).

(** [cell <= k], [cell >= k], ... against an integer: false on a missing
    value, [TypeError] on a text or a timestamp. *)
Definition cell_compare (op : Z -> Z -> bool) (k : Z) (c : cell) : result bool :=
  match c with
  | NaN => Ok false
  | Num n => Ok (op n k)
  | Str _ | Stamp _ => Raise TypeError
  end.

(** [cell == s] against a text. *)
Definition eq_str (s : string) (c : cell) : result bool :=
  match c with
  | Str t => Ok (bool_decide (t = s))
  | NaN | Num _ => Ok false
  | Stamp _ => Raise OutOfModel
  end.

Definition is_text (c : cell) : bool :=
  match c with Str _ => true | _ => false end.

Definition is_missing (c : cell) : bool :=
  match c with NaN => true | _ => false end.

Definition is_stamp (c : cell) : bool :=
  match c with Stamp _ => true | _ => false end.

(** The dtype of a column of numbers, missing values and texts: [int64]
    when every cell is a number, [float64] when some cells are missing
    and none is a text, [object] when some cell is a text. *)
Inductive dtype := Int64 | Float64 | Object.

Definition dtype_of (col : list cell) : dtype :=
  if existsb is_text col then Object
  else if existsb is_missing col then Float64
  else Int64.

(** The integers of [int64], and the value an [int64] operation wraps an
    integer to. *)
Definition in_int64 (n : Z) : bool :=
  (-9223372036854775808 <=? n) && (n <=? 9223372036854775807).

Definition int64_wrap (n : Z) : Z :=
  (n + 9223372036854775808) mod 18446744073709551616 - 9223372036854775808.

(** The integers up to 2^52 in magnitude: a [float64] holds them and
    their differences exactly, and so does a Python [int]. *)
Definition float_exact (n : Z) : bool :=
  (-4503599627370496 <=? n) && (n <=? 4503599627370496).

(** Every number of the column satisfies [p]. *)
Definition numbers (p : Z -> bool) (col : list cell) : bool :=
  forallb (fun c => match c with Num n => p n | _ => true end) col.

(** [a - b] on one row.  A row with a missing value gives a missing value:
    in [float64] by the arithmetic of NaN, and in [object] columns because
    pandas, once the subtraction of the whole columns has raised
    [TypeError], subtracts again on the rows where both values are
    present.  On such a row a text raises [TypeError].  Two numbers are
    subtracted modulo 2^64, which is the difference itself wherever
    [series_sub] lets a column that is not [int64] through. *)
Definition cell_sub (a b : cell) : result cell :=
  match a, b with
  | Stamp _, _ | _, Stamp _ => Raise OutOfModel
  | NaN, _ | _, NaN => Ok NaN
  | Str _, _ | _, Str _ => Raise TypeError
  | Num x, Num y => Ok (Num (int64_wrap (x - y)))
  end.

(** [left - right] on two columns of one frame.  Two [int64] columns are
    subtracted in [int64], with wrap-around.  As soon as one column is
    [float64] or [object], the numbers of both must be exact in
    [float64]. *)
Definition series_sub (left right : list cell) : result (list cell) :=
  if existsb is_stamp left || existsb is_stamp right then Raise OutOfModel
  else
    let in_range :=
      match dtype_of left, dtype_of right with
      | Int64, Int64 => in_int64
      | _, _ => float_exact
      end in
    if numbers in_range left && numbers in_range right
    then mapM (fun p => cell_sub p.1 p.2) (zip left right)
    else Raise OutOfModel.

(** [pd.Timestamp.min] and [pd.Timestamp.max], cut to the microseconds a
    [datetime] has: 1677-09-21 00:12:43.145225 and
    2262-04-11 23:47:16.854775. *)
Definition Timestamp_min : datetime := mk_datetime 1677 9 21 763145225.
Definition Timestamp_max : datetime := mk_datetime 2262 4 11 85636854775.

Definition in_ns_bounds (d : datetime) : bool :=
  datetime_leb Timestamp_min d && datetime_leb d Timestamp_max.

(** [pd.to_datetime(d)] on a [datetime]: a nanosecond timestamp, or
    [OutOfBoundsDatetime]. *)
Definition to_datetime_scalar (d : datetime) : result datetime :=
  if in_ns_bounds d then Ok d else Raise OutOfBoundsDatetime.

(** [pd.to_datetime] on one cell of a column; a missing value becomes
    NaT.  What pandas stores and converts for a timestamp outside the
    nanosecond range depends on its version. *)
Definition to_datetime (c : cell) : result (option datetime) :=
  match c with
  | Stamp d => if in_ns_bounds d then Ok (Some d) else Raise OutOfModel
  | NaN => Ok None
  | Num _ | Str _ => Raise OutOfModel
  end.

Definition of_timestamp (t : option datetime) : cell :=
  match t with
  | Some d => Stamp d
  | None => NaN
  end.

(** [.astype(str)] on one cell: [str(float('nan'))] is the text [nan], so
    no cell is missing afterwards. *)
Definition astype_str (c : cell) : result string :=
  match c with
  | Str s => Ok s
  | NaN => Ok "nan"
  | Num _ | Stamp _ => Raise OutOfModel
  end.

(** The characters that are not literal in a regular expression. *)
Definition regex_special : list ascii :=
  chars ".^$*+?{}[]\|()".

Definition regex_literal (pat : string) : bool :=
  forallb (fun c => negb (bool_decide (c ∈ regex_special))) (chars pat).

(** [col.astype(str).str.lower().str.contains(pat, na=False)]: [pat] is
    compiled as a regular expression, which for a pattern of literal
    characters searches the text for the pattern. *)
Definition lower_contains (pat : string) (col : list cell)
  : result (list bool) :=
  texts ← mapM astype_str col;
  if regex_literal pat
  then Ok (map (fun t => str_in pat (lower t)) texts)
  else Raise OutOfModel.

End Pandas.

Import Pandas.

(* ================================================================== *)
(** * Schema normaliser (app.py, lines 377-436)                         *)
(* ================================================================== *)

Definition COLUMN_ITEMS : list (string * string) :=
  [ (* Ticker variations *)
    ("ticker", "Ticker"); ("symbol", "Ticker"); ("stock", "Ticker");
    ("stock code", "Ticker"); ("code", "Ticker");
    (* Company name variations *)
    ("company", "Company Name"); ("company name", "Company Name");
    ("name", "Company Name"); ("company_name", "Company Name");
    (* Sector variations *)
    ("sector", "Sector"); ("industry", "Sector"); ("gics sector", "Sector");
    (* Decile variations *)
    ("current decile", "Current Decile"); ("current_decile", "Current Decile");
    ("decile", "Current Decile"); ("curr decile", "Current Decile");
    ("previous decile", "Previous Decile");
    ("previous_decile", "Previous Decile");
    ("prev decile", "Previous Decile"); ("prior decile", "Previous Decile");
    ("decile change", "Decile Change"); ("decile_change", "Decile Change");
    ("change", "Decile Change");
    (* Score variations *)
    ("score", "Score"); ("total score", "Score"); ("composite score", "Score");
    (* Market cap variations *)
    ("market cap", "Market Cap (Bn)"); ("market_cap", "Market Cap (Bn)");
    ("marketcap", "Market Cap (Bn)"); ("mkt cap", "Market Cap (Bn)") ].

Definition column_mappings : gmap string string := list_to_map COLUMN_ITEMS.

(** One turn of the loop over [df.columns]. *)
Definition add_column (new_columns : gmap string string) (col : string)
  : gmap string string :=
  let col_lower := strip (lower col) in
  match column_mappings !! col_lower with
  | Some std => <[col := std]> new_columns
  | None => new_columns
  end.

(** The dict [new_columns] once the loop has run over the headers. *)
Definition new_columns_of (headers : list string) : gmap string string :=
  foldl add_column ∅ headers.

(** [df.rename(columns=m)]: a header that [m] lacks is kept. *)
Definition rename (m : gmap string string) (df : DataFrame) : DataFrame :=
  mk_frame (index df) (map (fun p => (default p.1 (m !! p.1), p.2)) (data df)).

Definition standardize_column_names (df : DataFrame) : DataFrame :=
  let new_columns := new_columns_of (columns df) in
  if bool_decide (new_columns = ∅) then df else rename new_columns df.

(* ================================================================== *)
(** * Record enricher (app.py, lines 438-454)                           *)
(* ================================================================== *)

(** [now] is the value [datetime.now()] returns during the call. *)
Definition process_file_data (df : option DataFrame) (region : string)
    (file_date : option datetime) (now : datetime)
  : result (option DataFrame) :=
  match df with
  | None => Ok None
  | Some df =>
      if empty df then Ok None
      else
        (* Standardize column names *)
        let df := standardize_column_names df in
        (* Add region and file date *)
        let df := setitem_scalar df "Region" (Str region) in
        let df := setitem_scalar df "File Date"
                    (Stamp (default now file_date)) in
        (* Calculate decile change if not present *)
        if negb (has_column df "Decile Change")
           && has_column df "Current Decile"
           && has_column df "Previous Decile"
        then
          current ← getitem df "Current Decile";
          previous ← getitem df "Previous Decile";
          change ← series_sub current previous;
          Ok (Some (setitem df "Decile Change" change))
        else Ok (Some df)
  end.

(* ================================================================== *)
(** * Filter engine (app.py, lines 459-515)                             *)
(* ================================================================== *)

Definition filter_by_decile_criteria (df : DataFrame) (criteria : string)
  : result DataFrame :=
  if empty df then Ok df
  else if bool_decide (criteria = "All Decile Movements") then Ok df
  else if bool_decide (criteria = "Entering Top 2 Deciles") then
    current ← getitem df "Current Decile";
    a ← mapM (cell_compare Z.leb 2) current;
    previous ← getitem df "Previous Decile";
    b ← mapM (cell_compare Z.gtb 2) previous;
    Ok (select_rows df (zip_with andb a b))
  else if bool_decide (criteria = "Entering Bottom 2 Deciles") then
    current ← getitem df "Current Decile";
    a ← mapM (cell_compare Z.geb 9) current;
    previous ← getitem df "Previous Decile";
    b ← mapM (cell_compare Z.ltb 9) previous;
    Ok (select_rows df (zip_with andb a b))
  else if bool_decide (criteria = "Moving +3 Deciles") then
    change ← getitem df "Decile Change";
    a ← mapM (cell_compare Z.geb 3) change;
    Ok (select_rows df a)
  else if bool_decide (criteria = "Moving +5 Deciles") then
    change ← getitem df "Decile Change";
    a ← mapM (cell_compare Z.geb 5) change;
    Ok (select_rows df a)
  else Ok df.

Definition filter_by_date_range (df : DataFrame) (start_date end_date : datetime)
  : result DataFrame :=
  if empty df || negb (has_column df "File Date") then Ok df
  else
    file_date ← getitem df "File Date";
    stamps ← mapM to_datetime file_date;
    let df_filtered := setitem df "File Date" (map of_timestamp stamps) in
    start_date ← to_datetime_scalar start_date;
    end_date ← to_datetime_scalar end_date;
    let in_range (t : option datetime) :=
      match t with
      | Some d => datetime_leb start_date d && datetime_leb d end_date
      | None => false
      end in
    Ok (select_rows df_filtered (map in_range stamps)).

Definition filter_by_search (df : DataFrame) (search_term : string)
  : result DataFrame :=
  if empty df || bool_decide (search_term = EmptyString) then Ok df
  else
    let search_lower := strip (lower search_term) in
    let mask := mk_series (seq 0 (len df)) (replicate (len df) false) in
    mask ← (if has_column df "Ticker"
            then ticker ← getitem df "Ticker";
                 hits ← lower_contains search_lower ticker;
                 Ok (series_or mask (mk_series (index df) hits))
            else Ok mask);
    mask ← (if has_column df "Company Name"
            then name ← getitem df "Company Name";
                 hits ← lower_contains search_lower name;
                 Ok (series_or mask (mk_series (index df) hits))
            else Ok mask);
    getitem_bool df mask.

Definition filter_by_sector (df : DataFrame) (sector : string)
  : result DataFrame :=
  if empty df || bool_decide (sector = "All Sectors")
     || negb (has_column df "Sector")
  then Ok df
  else
    col ← getitem df "Sector";
    mask ← mapM (eq_str sector) col;
    Ok (select_rows df mask).

Definition filter_by_region (df : DataFrame) (region : string)
  : result DataFrame :=
  if empty df || bool_decide (region = "All Regions")
     || negb (has_column df "Region")
  then Ok df
  else
    col ← getitem df "Region";
    mask ← mapM (eq_str region) col;
    Ok (select_rows df mask).

(* ================================================================== *)
(** * Time period (app.py, lines 517-532)                               *)
(* ================================================================== *)

(** A [dateutil.relativedelta] that holds relative years and months, the
    only fields this program sets. *)
Record relativedelta := mk_relativedelta { rd_years : Z; rd_months : Z }.

(** [relativedelta(years=y, months=n)]: the constructor carries whole
    dozens of months over into the years. *)
Definition relativedelta_new (y n : Z) : relativedelta :=
  if 11 <? Z.abs n
  then let s := Z.sgn n in
       mk_relativedelta (y + (n * s / 12) * s) ((n * s) mod 12 * s)
  else mk_relativedelta y n.

(** [-delta] *)
Definition relativedelta_neg (delta : relativedelta) : relativedelta :=
  relativedelta_new (- rd_years delta) (- rd_months delta).

(** [dt + delta]: the month is moved and wrapped into 1..12, the day is
    cut to the length of the month reached and the time of day is kept;
    [None] stands for the [ValueError] of a year outside 1..9999. *)
Definition relativedelta_radd (delta : relativedelta) (dt : datetime)
  : option datetime :=
  let y := year dt + rd_years delta in
  let m := month dt in
  let '(y, m) :=
    if rd_months delta =? 0 then (y, m)
    else
      let m := m + rd_months delta in
      if 12 <? m then (y + 1, m - 12)
      else if m <? 1 then (y - 1, m + 12)
      else (y, m) in
  let d := Z.min (days_in_month y m) (day dt) in
  if valid_date y m d then Some (mk_datetime y m d (tod dt)) else None.

(** [dt - delta] *)
Definition datetime_sub (dt : datetime) (delta : relativedelta)
  : option datetime :=
  relativedelta_radd (relativedelta_neg delta) dt.

(** [now] is the value [datetime.now()] returns during the call. *)
Definition get_date_range_from_period (period : string) (now : datetime)
  : option (datetime * datetime) :=
  let end_date := now in
  start_date ←
    (if bool_decide (period = "3 Months") then
       datetime_sub end_date (relativedelta_new 0 3)
     else if bool_decide (period = "6 Months") then
       datetime_sub end_date (relativedelta_new 0 6)
     else if bool_decide (period = "9 Months") then
       datetime_sub end_date (relativedelta_new 0 9)
     else if bool_decide (period = "12 Months") then
       datetime_sub end_date (relativedelta_new 0 12)
     else (* Custom *)
       datetime_sub end_date (relativedelta_new 0 12));
  Some (start_date, end_date).

(* ================================================================== *)
(** * Predicates of the specification                                   *)
(* ================================================================== *)

(** [l] is empty or begins with a character outside the class [p]. *)
Definition stops (p : ascii → bool) (l : list ascii) : Prop :=
  match l with
  | [] => True
  | c :: _ => p c = false
  end.

(** A non-empty run of whitespace. *)
Definition blanks (s : string) : bool :=
  negb (is_nil (chars s)) && forallb is_space (chars s).

(** A run of [n] decimal digits. *)
Definition digits (n : nat) (s : string) : bool :=
  (length (chars s) =? n)%nat && forallb is_digit (chars s).

(** The region tags of the data model. *)
Definition REGION_TAGS : list string :=
  [ "US"; "Europe"; "UK"; "APAC Ex Japan"; "Japan"; "China"; "Global";
    "Global Ex US"; "Unclassified" ].

(** No keyword of the general table occurs between word boundaries. *)
Definition no_keyword_matches (filename_lower : string) : bool :=
  forallb (fun entry =>
             forallb (fun keyword =>
                        negb (Re.word_search keyword filename_lower))
                     entry.2)
          REGION_MAPPINGS.

(** No rule of the classifier applies to the file name. *)
Definition no_rule_matches (filename : string) : bool :=
  let filename_lower := lower filename in
  negb (str_in "global ex us" filename_lower)
  && negb (str_in "global ex-us" filename_lower)
  && negb (str_in "apac ex jpy" filename_lower)
  && negb (str_in "apac ex japan" filename_lower)
  && negb (str_in "s&p500" filename_lower)
  && negb (str_in "s&p 500" filename_lower)
  && negb (str_in "sp500" filename_lower)
  && no_keyword_matches filename_lower.

(** The canonical headers of the schema. *)
Definition CANONICAL : list string :=
  [ "Ticker"; "Company Name"; "Sector"; "Current Decile"; "Previous Decile";
    "Decile Change"; "Score"; "Market Cap (Bn)" ].

(** A rename map every entry of which sends a header to itself. *)
Definition identity_map (m : gmap string string) : Prop :=
  ∀ c std, m !! c = Some std → std = c.

(** A decile cell: a number or a missing value. *)
Definition numeric (c : cell) : Prop :=
  match c with
  | NaN | Num _ => True
  | Str _ | Stamp _ => False
  end.

(** A decile cell whose difference every numeric dtype computes exactly:
    a missing value, or an integer of magnitude at most 2^52.  The deciles
    1 to 10 of the specification are such cells. *)
Definition exact_number (c : cell) : Prop :=
  match c with
  | NaN => True
  | Num n => -4503599627370496 <= n <= 4503599627370496
  | Str _ | Stamp _ => False
  end.

(** The criterion "Entering Top 2 Deciles" on one row. *)
Definition entering_top2 (current previous : cell) : bool :=
  match current, previous with
  | Num c, Num p => (c <=? 2) && (p >? 2)
  | _, _ => false
  end.

(** Current Decile minus Previous Decile on one row; missing when either
    is. *)
Definition difference (current previous : cell) : cell :=
  match current, previous with
  | Num c, Num p => Num (c - p)
  | _, _ => NaN
  end.

Definition number_where (op : Z → Z → bool) (k : Z) (c : cell) : bool :=
  match c with
  | Num n => op n k
  | _ => false
  end.

(** The frame [df] with all its rows dropped. *)
Definition no_rows (df : DataFrame) : DataFrame :=
  select_rows df (replicate (len df) false).

(** One filter together with its arguments. *)
Inductive filter_call :=
| ByRegion (region : string)
| BySector (sector : string)
| ByDateRange (start_date end_date : datetime)
| ByDecile (criteria : string)
| BySearch (search_term : string).

Definition apply_filter (f : filter_call) (df : DataFrame) : result DataFrame :=
  match f with
  | ByRegion region => filter_by_region df region
  | BySector sector => filter_by_sector df sector
  | ByDateRange start_date end_date => filter_by_date_range df start_date end_date
  | ByDecile criteria => filter_by_decile_criteria df criteria
  | BySearch search_term => filter_by_search df search_term
  end.

(** The filters applied one after the other, each to the result of the one
    before, as in [filtered_data = filter_by_...(filtered_data, ...)]. *)
Fixpoint apply_filters (fs : list filter_call) (df : DataFrame)
  : result DataFrame :=
  match fs with
  | [] => Ok df
  | f :: fs' => df' ← apply_filter f df; apply_filters fs' df'
  end.

(** A merged dataset of two files that have no Previous Decile column, so
    that no Decile Change was derived. *)
Definition dataset_without_change : DataFrame :=
  mk_frame [0%nat; 1%nat]
    [ ("Ticker", [Str "AAPL"; Str "F"]);
      ("Company Name", [Str "Apple Inc"; Str "Ford Motor Co"]);
      ("Sector", [Str "Technology"; Str "Industrials"]);
      ("Current Decile", [Num 1; Num 4]);
      ("Region", [Str "US"; Str "US"]);
      ("File Date", [Stamp (mk_datetime 2025 3 11 0);
                     Stamp (mk_datetime 2025 3 11 0)]) ].

(** A merged dataset of a US file and a Japan file with all columns. *)
Definition dataset_two_regions : DataFrame :=
  mk_frame [0%nat; 1%nat]
    [ ("Ticker", [Str "AAPL"; Str "TM"]);
      ("Company Name", [Str "Apple Inc"; Str "Toyota Motor"]);
      ("Sector", [Str "Technology"; Str "Industrials"]);
      ("Current Decile", [Num 1; Num 7]);
      ("Previous Decile", [Num 3; Num 2]);
      ("Decile Change", [Num (-2); Num 5]);
      ("Region", [Str "US"; Str "Japan"]);
      ("File Date", [Stamp (mk_datetime 2025 3 11 0);
                     Stamp (mk_datetime 2026 1 8 0)]) ].

(* ================================================================== *)
(** * Strings                                                       *)
(* ================================================================== *)

Example lower_example : lower "GLOBAL Ex-US" = "global ex-us".
Proof. reflexivity. Qed.

Example strip_example : strip "  Stock Code " = "Stock Code".
Proof. reflexivity. Qed.


Lemma chars_app (a b : string) : chars (a +:+ b) = chars a ++ chars b.
Proof.
  unfold chars. induction a as [|c a IH]; simpl; [done|].
  by rewrite <- IH.
Qed.

Lemma of_chars_app (a b : list ascii) :
  of_chars (a ++ b) = of_chars a +:+ of_chars b.
Proof.
  unfold of_chars. induction a as [|c a IH]; simpl; [done|].
  by rewrite IH.
Qed.

Lemma chars_of_chars (l : list ascii) : chars (of_chars l) = l.
Proof. apply list_ascii_of_string_of_list_ascii. Qed.

Lemma of_chars_chars (s : string) : of_chars (chars s) = s.
Proof. apply string_of_list_ascii_of_string. Qed.

Lemma chars_lower (s : string) : chars (lower s) = map lower_char (chars s).
Proof. unfold lower. apply chars_of_chars. Qed.

Lemma lower_app (a b : string) : lower (a +:+ b) = lower a +:+ lower b.
Proof.
  unfold lower. by rewrite chars_app, map_app, of_chars_app.
Qed.

Lemma starts_with_app (p s : list ascii) : starts_with p (p ++ s) = true.
Proof.
  induction p as [|c p IH]; simpl; [done|].
  rewrite bool_decide_eq_true_2 by done. exact IH.
Qed.

Lemma starts_with_inv (p s : list ascii) :
  starts_with p s = true → ∃ t, s = p ++ t.
Proof.
  revert s. induction p as [|c p IH]; intros s H; simpl in *.
  - by exists s.
  - destruct s as [|d s]; [done|].
    apply andb_true_iff in H as [Hc Hp].
    apply bool_decide_eq_true_1 in Hc as ->.
    destruct (IH _ Hp) as [t ->]. by exists t.
Qed.

Lemma occurs_here (sub s : list ascii) :
  starts_with sub s = true → occurs sub s = true.
Proof. intros H. destruct s; simpl; by rewrite H. Qed.

Lemma occurs_app (pre sub post : list ascii) :
  occurs sub (pre ++ sub ++ post) = true.
Proof.
  induction pre as [|c pre IH].
  - apply (occurs_here sub (sub ++ post)), starts_with_app.
  - simpl. rewrite IH. apply orb_true_r.
Qed.

Lemma occurs_inv (sub s : list ascii) :
  occurs sub s = true → ∃ pre post, s = pre ++ sub ++ post.
Proof.
  induction s as [|c s IH]; simpl; intros H.
  - rewrite orb_false_r in H. apply starts_with_inv in H as [t ->].
    by exists [], t.
  - apply orb_true_iff in H as [H|H].
    + apply starts_with_inv in H as [t ->]. by exists [], t.
    + destruct (IH H) as (pre & post & ->). by exists (c :: pre), post.
Qed.

(** [sub in s] holds exactly when [s] splits around a copy of [sub]. *)
Lemma str_in_spec (sub s : string) :
  str_in sub s = true ↔ ∃ pre post, s = pre +:+ sub +:+ post.
Proof.
  unfold str_in. split.
  - intros H. apply occurs_inv in H as (pre & post & E).
    exists (of_chars pre), (of_chars post).
    rewrite <- (of_chars_chars s), E, !of_chars_app.
    by rewrite of_chars_chars.
  - intros (pre & post & ->). rewrite !chars_app. apply occurs_app.
Qed.


(* ================================================================== *)
(** * Date patterns                                                 *)
(* ================================================================== *)

(** ** Character classes *)

(** The 256 characters, one by one. *)
Ltac by_cases c :=
  destruct c as [[] [] [] [] [] [] [] []]; vm_compute; intros; congruence.

Lemma alpha_not_space c : is_alpha c = true → is_space c = false.
Proof. by_cases c. Qed.

Lemma alpha_not_digit c : is_alpha c = true → is_digit c = false.
Proof. by_cases c. Qed.

Lemma space_not_alpha c : is_space c = true → is_alpha c = false.
Proof. by_cases c. Qed.

Lemma space_not_digit c : is_space c = true → is_digit c = false.
Proof. by_cases c. Qed.

Lemma digit_not_space c : is_digit c = true → is_space c = false.
Proof. by_cases c. Qed.

Lemma lower_letter_alpha c :
  between 97 122 (lower_char c) = true → is_alpha c = true.
Proof. by_cases c. Qed.

(** ** Greedy runs *)

Section Runs.

Variable p : ascii → bool.

Lemma take_while_stops l : stops p l → take_while p l = [].
Proof. destruct l as [|c l]; simpl; [done|]. by intros ->. Qed.

Lemma drop_while_stops l : stops p l → drop_while p l = l.
Proof. destruct l as [|c l]; simpl; [done|]. by intros ->. Qed.

Lemma take_while_all a b :
  forallb p a = true → take_while p (a ++ b) = a ++ take_while p b.
Proof.
  induction a as [|c a IH]; simpl; [done|].
  intros H. apply andb_true_iff in H as [-> Ha]. by rewrite IH.
Qed.

Lemma drop_while_all a b :
  forallb p a = true → drop_while p (a ++ b) = drop_while p b.
Proof.
  induction a as [|c a IH]; simpl; [done|].
  intros H. apply andb_true_iff in H as [-> Ha]. by rewrite IH.
Qed.

Lemma take_while_some a b :
  forallb p a = false → take_while p (a ++ b) = take_while p a.
Proof.
  induction a as [|c a IH]; simpl; [done|].
  destruct (p c); simpl; [|done]. intros H. by rewrite IH.
Qed.

Lemma drop_while_some a b :
  forallb p a = false → drop_while p (a ++ b) = drop_while p a ++ b.
Proof.
  induction a as [|c a IH]; simpl; [done|].
  destruct (p c); simpl; [|done]. intros H. by rewrite IH.
Qed.

Lemma take_drop_while l : take_while p l ++ drop_while p l = l.
Proof.
  induction l as [|c l IH]; simpl; [done|].
  destruct (p c); simpl; [|done]. by rewrite IH.
Qed.

Lemma forallb_take_while l : forallb p (take_while p l) = true.
Proof.
  induction l as [|c l IH]; simpl; [done|].
  destruct (p c) eqn:E; simpl; [|done]. by rewrite E, IH.
Qed.

Lemma forallb_last (l : list ascii) u :
  last l = Some u → p u = false → forallb p l = false.
Proof.
  induction l as [|c l IH]; [done|].
  destruct l as [|d l].
  - simpl. intros [= ->] ->. done.
  - intros Hl Hu. change (forallb p (c :: d :: l))
      with (p c && forallb p (d :: l)).
    rewrite IH; [apply andb_false_r| |done].
    by rewrite last_cons_cons in Hl.
Qed.

End Runs.

(** ** Leftmost match *)

Section Search.

Context {A : Type} (f : list ascii → option A).

Lemma search_here s m :
  f s = Some m → Re.search f s = Some m.
Proof. intros H. destruct s; simpl; by rewrite H. Qed.

Lemma search_none_cons c s :
  Re.search f (c :: s) = None → f (c :: s) = None ∧ Re.search f s = None.
Proof. simpl. destruct (f (c :: s)); [done|]. by intros ->. Qed.

(** A pattern that, anchored in [pre], sees nothing of what follows [pre]
    has its leftmost match after [pre] when it has none inside. *)
Lemma search_skip (pre rest : list ascii) :
  (∀ s, s ≠ [] → last s = last pre → f (s ++ rest) = f s) →
  Re.search f pre = None →
  Re.search f (pre ++ rest) = Re.search f rest.
Proof.
  induction pre as [|c pre IH]; intros Hstable Hnone; [done|].
  apply search_none_cons in Hnone as [Hhere Hlater].
  change ((c :: pre) ++ rest) with (c :: (pre ++ rest)).
  cbn [Re.search].
  change (c :: (pre ++ rest)) with ((c :: pre) ++ rest).
  rewrite Hstable, Hhere by done.
  destruct pre as [|d pre]; [done|].
  apply IH; [|done].
  intros s Hs Hlast. apply Hstable; [done|].
  by rewrite Hlast, last_cons_cons.
Qed.

End Search.

(** ** Pattern 1 *)

Section Pattern1Stable.

Variables (s rest : list ascii) (u r : ascii).
Hypothesis Hlast : last s = Some u.
Hypothesis Hu : is_alpha u = false.
Hypothesis Hr : is_alpha r = true.

(** What follows a prefix ending in a character that is no letter, when
    the text resumes with a letter, is invisible to pattern 1 anchored in
    the prefix. *)
Lemma pattern1_stable : Re.pattern1 (s ++ r :: rest) = Re.pattern1 s.
Proof.
  pose proof (forallb_last is_alpha s u Hlast Hu) as Hs.
  pose proof (alpha_not_space r Hr) as Hrs.
  pose proof (alpha_not_digit r Hr) as Hrd.
  assert (Hstop_s : stops is_space (r :: rest)) by exact Hrs.
  assert (Hstop_d : stops is_digit (r :: rest)) by exact Hrd.
  unfold Re.pattern1.
  rewrite (take_while_some _ _ _ Hs), (drop_while_some _ _ _ Hs).
  set (g1 := take_while is_alpha s). set (s1 := drop_while is_alpha s).
  destruct (forallb is_space s1) eqn:E1.
  { rewrite (take_while_all _ _ _ E1), (drop_while_all _ _ _ E1).
    rewrite (take_while_stops _ _ Hstop_s), (drop_while_stops _ _ Hstop_s).
    rewrite (take_while_stops _ _ Hstop_d).
    replace (drop_while is_space s1) with (@nil ascii).
    - simpl. by rewrite !andb_false_r.
    - pose proof (drop_while_all is_space s1 [] E1) as H.
      by rewrite app_nil_r in H. }
  rewrite (take_while_some _ _ _ E1), (drop_while_some _ _ _ E1).
  set (ws1 := take_while is_space s1). set (s2 := drop_while is_space s1).
  destruct (forallb is_digit s2) eqn:E2.
  { rewrite (take_while_all _ _ _ E2), (drop_while_all _ _ _ E2).
    rewrite (take_while_stops _ _ Hstop_d), (drop_while_stops _ _ Hstop_d).
    rewrite (take_while_stops _ _ Hstop_s).
    replace (drop_while is_digit s2) with (@nil ascii).
    - simpl. by rewrite !andb_false_r.
    - pose proof (drop_while_all is_digit s2 [] E2) as H.
      by rewrite app_nil_r in H. }
  rewrite (take_while_some _ _ _ E2), (drop_while_some _ _ _ E2).
  set (g2 := take_while is_digit s2). set (s3 := drop_while is_digit s2).
  destruct (forallb is_space s3) eqn:E3.
  { rewrite (take_while_all _ _ _ E3), (drop_while_all _ _ _ E3).
    rewrite (take_while_stops _ _ Hstop_s), (drop_while_stops _ _ Hstop_s).
    replace (drop_while is_space s3) with (@nil ascii).
    - simpl. rewrite Hrd. simpl. by rewrite !andb_false_r.
    - pose proof (drop_while_all is_space s3 [] E3) as H.
      by rewrite app_nil_r in H. }
  rewrite (take_while_some _ _ _ E3), (drop_while_some _ _ _ E3).
  set (ws2 := take_while is_space s3). set (s4 := drop_while is_space s3).
  destruct (decide (4 ≤ length s4)%nat) as [Hlong|Hshort].
  - by rewrite take_app_le.
  - assert (Hright : (length (take 4 s4) =? 4)%nat = false).
    { apply Nat.eqb_neq. rewrite length_take. lia. }
    assert (Hleft : forallb is_digit (take 4 (s4 ++ r :: rest)) = false).
    { rewrite take_app_ge by lia.
      destruct (4 - length s4)%nat as [|k] eqn:Ek; [lia|].
      rewrite forallb_app. simpl. rewrite Hrd. simpl.
      apply andb_false_r. }
    rewrite Hleft, Hright. by rewrite !andb_false_r.
Qed.

End Pattern1Stable.

(** Pattern 1 anchored at a month name, a day and a year. *)
Lemma pattern1_exact (m ws1 d ws2 y post : list ascii) :
  m ≠ [] → forallb is_alpha m = true →
  ws1 ≠ [] → forallb is_space ws1 = true →
  d ≠ [] → (length d ≤ 2)%nat → forallb is_digit d = true →
  ws2 ≠ [] → forallb is_space ws2 = true →
  length y = 4%nat → forallb is_digit y = true →
  Re.pattern1 (m ++ ws1 ++ d ++ ws2 ++ y ++ post) = Some (m, d, y).
Proof.
  intros Hm Hma Hw1 Hw1s Hd Hdl Hdd Hw2 Hw2s Hyl Hyd.
  assert (Hhead : ∀ (p q : ascii → bool) (a b : list ascii),
             (∀ c, q c = true → p c = false) →
             a ≠ [] → forallb q a = true → stops p (a ++ b)).
  { intros p q [|c a] b Hpq Ha Hall; [done|].
    simpl in *. apply andb_true_iff in Hall as [Hc _]. auto. }
  assert (S1 : stops is_alpha (ws1 ++ d ++ ws2 ++ y ++ post)).
  { eapply Hhead; eauto using space_not_alpha. }
  assert (S2 : stops is_space (d ++ ws2 ++ y ++ post)).
  { eapply Hhead; eauto using digit_not_space. }
  assert (S3 : stops is_digit (ws2 ++ y ++ post)).
  { eapply Hhead; eauto using space_not_digit. }
  assert (S4 : stops is_space (y ++ post)).
  { destruct y as [|c y]; [done|]. simpl in *.
    apply andb_true_iff in Hyd as [Hc _]. by apply digit_not_space. }
  unfold Re.pattern1.
  rewrite (take_while_all _ _ _ Hma), (drop_while_all _ _ _ Hma).
  rewrite (take_while_stops _ _ S1), (drop_while_stops _ _ S1), app_nil_r.
  rewrite (take_while_all _ _ _ Hw1s), (drop_while_all _ _ _ Hw1s).
  rewrite (take_while_stops _ _ S2), (drop_while_stops _ _ S2), app_nil_r.
  rewrite (take_while_all _ _ _ Hdd), (drop_while_all _ _ _ Hdd).
  rewrite (take_while_stops _ _ S3), (drop_while_stops _ _ S3), app_nil_r.
  rewrite (take_while_all _ _ _ Hw2s), (drop_while_all _ _ _ Hw2s).
  rewrite (take_while_stops _ _ S4), (drop_while_stops _ _ S4), app_nil_r.
  rewrite take_app_length' by done.
  rewrite Hyl, Hyd. simpl.
  destruct m, ws1, d, ws2; try done. simpl.
  assert ((length d <=? 1)%nat = true) as ->; [|done].
  apply Nat.leb_le. simpl in Hdl. lia.
Qed.

(** Conversely, a match of pattern 1 splits the text the way the regular
    expression reads: letters, blanks, one or two digits, blanks, four
    digits.  The classes of neighbouring runs being disjoint, the text has
    one such split at most, which is why the order in which an engine tries
    the alternatives does not show. *)
Lemma pattern1_sound (s g1 g2 g3 : list ascii) :
  Re.pattern1 s = Some (g1, g2, g3) →
  ∃ ws1 ws2 rest,
    s = g1 ++ ws1 ++ g2 ++ ws2 ++ g3 ++ rest
    ∧ g1 ≠ [] ∧ forallb is_alpha g1 = true
    ∧ ws1 ≠ [] ∧ forallb is_space ws1 = true
    ∧ g2 ≠ [] ∧ (length g2 ≤ 2)%nat ∧ forallb is_digit g2 = true
    ∧ ws2 ≠ [] ∧ forallb is_space ws2 = true
    ∧ length g3 = 4%nat ∧ forallb is_digit g3 = true.
Proof.
  unfold Re.pattern1.
  set (s1 := drop_while is_alpha s). set (s2 := drop_while is_space s1).
  set (s3 := drop_while is_digit s2). set (s4 := drop_while is_space s3).
  destruct (_ && _) eqn:E; [|done]. intros [= <- <- <-].
  repeat (apply andb_true_iff in E as [E ?]).
  assert (Hne : ∀ l : list ascii, negb (is_nil l) = true → l ≠ []).
  { by intros []. }
  exists (take_while is_space s1), (take_while is_space s3), (drop 4 s4).
  split.
  { rewrite take_drop. unfold s4. rewrite take_drop_while.
    unfold s3. rewrite take_drop_while.
    unfold s2. rewrite take_drop_while.
    unfold s1. by rewrite take_drop_while. }
  repeat split; auto using forallb_take_while.
  - by apply Nat.leb_le.
  - by apply Nat.eqb_eq.
Qed.

(** ** Month names *)

Lemma month_items_letters :
  Forall (fun kv => forallb (between 97 122) (chars kv.1) = true
                    ∧ chars kv.1 ≠ [])
         MONTH_ITEMS.
Proof.
  unfold MONTH_ITEMS.
  repeat (apply Forall_cons; split; [split; [reflexivity|discriminate]|]).
  apply Forall_nil_2.
Qed.

Lemma lower_letters_alpha (l : list ascii) :
  forallb (between 97 122) (map lower_char l) = true →
  forallb is_alpha l = true.
Proof.
  induction l as [|c l IH]; simpl; [done|].
  intros H. apply andb_true_iff in H as [Hc Hl].
  by rewrite (lower_letter_alpha c Hc), IH.
Qed.

(** A text whose lower-case form is a key of the month table is a
    non-empty run of letters. *)
Lemma month_name_letters (m : string) (mon : Z) :
  MONTH_MAPPINGS !! lower m = Some mon →
  chars m ≠ [] ∧ forallb is_alpha (chars m) = true.
Proof.
  intros H. apply elem_of_list_to_map_2 in H.
  pose proof month_items_letters as Hall.
  rewrite Forall_forall in Hall. destruct (Hall _ H) as [Hletters Hne].
  simpl in *. rewrite chars_lower in Hletters, Hne. split.
  - intros E. by rewrite E in Hne.
  - by apply lower_letters_alpha.
Qed.


(* ================================================================== *)
(** * Date extraction                                               *)
(* ================================================================== *)

Example classify_sp500 :
  parse_file_metadata "S&P500 March 11 2025.xlsx"
  = mk_metadata "S&P500 March 11 2025.xlsx" (Some (mk_datetime 2025 3 11 0)) "US".
Proof. vm_compute. reflexivity. Qed.

Example classify_japan :
  parse_file_metadata "Japan Jan 08 2026.xlsx"
  = mk_metadata "Japan Jan 08 2026.xlsx" (Some (mk_datetime 2026 1 8 0)) "Japan".
Proof. vm_compute. reflexivity. Qed.

Example classify_random :
  parse_file_metadata "randomfile.csv"
  = mk_metadata "randomfile.csv" None "Unclassified".
Proof. vm_compute. reflexivity. Qed.

(** C1, counterexample.  Both file names contain "March 11 2025", a month
    of the table with a valid day and year, and no date is extracted: in
    the first the leftmost match of the pattern is "Report 3 2024", in the
    second the matched word is "XMarch". *)
Lemma month_day_year_not_found :
  str_in "March 11 2025" "Report 3 2024 March 11 2025.xlsx" = true
  ∧ str_in "March 11 2025" "XMarch 11 2025.xlsx" = true
  ∧ MONTH_MAPPINGS !! lower "March" = Some 3
  ∧ valid_date 2025 3 11 = true
  ∧ extract_date_from_filename "Report 3 2024 March 11 2025.xlsx" = None
  ∧ extract_date_from_filename "XMarch 11 2025.xlsx" = None.
Proof. vm_compute. repeat split; reflexivity. Qed.

(** C1, amended.  A file name that reads: prefix, month name of the table
    in any letter case, blanks, a day of one or two digits, blanks, a year
    of four digits, anything, with a valid calendar date, gives exactly
    that date, provided the pattern has no match inside the prefix and the
    prefix does not end in a letter. *)
Theorem month_day_year_leftmost
    (pre m ws1 d ws2 y post : string) (mon : Z)
    (Hmonth : MONTH_MAPPINGS !! lower m = Some mon)
    (Hws1 : blanks ws1 = true)
    (Hday : digits 1 d = true ∨ digits 2 d = true)
    (Hws2 : blanks ws2 = true)
    (Hyear : digits 4 y = true)
    (Hvalid : valid_date (int (chars y)) mon (int (chars d)) = true)
    (Hbefore : Re.search Re.pattern1 (chars pre) = None)
    (Hedge : ∀ c, last (chars pre) = Some c → is_alpha c = false) :
  extract_date_from_filename (pre +:+ m +:+ ws1 +:+ d +:+ ws2 +:+ y +:+ post)
  = Some (mk_datetime (int (chars y)) mon (int (chars d)) 0).
Proof.
  destruct (month_name_letters m mon Hmonth) as [Hm Hma].
  unfold blanks in Hws1, Hws2. unfold digits in Hday, Hyear.
  apply andb_true_iff in Hws1 as [Hw1 Hw1s].
  apply andb_true_iff in Hws2 as [Hw2 Hw2s].
  apply andb_true_iff in Hyear as [Hyl Hyd]. apply Nat.eqb_eq in Hyl.
  assert (Hd : chars d ≠ [] ∧ (length (chars d) ≤ 2)%nat
               ∧ forallb is_digit (chars d) = true).
  { destruct Hday as [H|H]; apply andb_true_iff in H as [Hl Hdd];
      apply Nat.eqb_eq in Hl; (split; [|split; [lia|done]]);
      intros E; by rewrite E in Hl. }
  destruct Hd as (Hdne & Hdl & Hdd).
  assert (Hmatch : Re.search Re.pattern1
                     (chars (pre +:+ m +:+ ws1 +:+ d +:+ ws2 +:+ y +:+ post))
                   = Some (chars m, chars d, chars y)).
  { rewrite !chars_app.
    pose proof (pattern1_exact (chars m) (chars ws1) (chars d) (chars ws2)
                  (chars y) (chars post)) as Hexact.
    rewrite search_skip; [apply search_here, Hexact| |done].
    - done.
    - done.
    - intros E. by rewrite E in Hw1.
    - done.
    - done.
    - done.
    - done.
    - intros E. by rewrite E in Hw2.
    - done.
    - done.
    - done.
    - intros s Hs Hlast.
      destruct (chars m) as [|r rest] eqn:Em; [done|].
      simpl in Hma. apply andb_true_iff in Hma as [Hr _].
      destruct (last s) as [u|] eqn:Eu.
      + apply (pattern1_stable s _ u r); [done| |done].
        apply Hedge. by rewrite <- Hlast.
      + by apply last_None in Eu. }
  unfold extract_date_from_filename. rewrite Hmatch.
  rewrite of_chars_chars, Hmonth. unfold datetime_new. by rewrite Hvalid.
Qed.

Lemma month_day_year_leftmost_witness :
  extract_date_from_filename "S&P500 March 11 2025.xlsx"
  = Some (mk_datetime 2025 3 11 0).
Proof.
  apply (month_day_year_leftmost
           "S&P500 " "March" " " "11" " " "2025" ".xlsx" 3).
  - reflexivity.
  - reflexivity.
  - right. reflexivity.
  - reflexivity.
  - reflexivity.
  - reflexivity.
  - reflexivity.
  - intros c [= <-]. reflexivity.
Defined.

(** ** Pattern 3 *)

(** What follows a prefix ending in a character that is no digit is
    invisible to pattern 3 anchored in the prefix. *)
Lemma pattern3_stable (s rest : list ascii) (u : ascii) :
  last s = Some u → is_digit u = false →
  Re.pattern3 (s ++ rest) = Re.pattern3 s.
Proof.
  intros Hlast Hu. unfold Re.pattern3.
  destruct (decide (8 ≤ length s)%nat) as [Hlong|Hshort].
  - by rewrite take_app_le.
  - assert (Hright : (length (take 8 s) =? 8)%nat = false).
    { apply Nat.eqb_neq. rewrite length_take. lia. }
    assert (Hleft : forallb is_digit (take 8 (s ++ rest)) = false).
    { rewrite take_app_ge by lia. rewrite forallb_app.
      by rewrite (forallb_last is_digit s u Hlast Hu). }
    rewrite Hleft, Hright. by rewrite andb_false_r.
Qed.

(** Pattern 3 anchored at eight digits. *)
Lemma pattern3_exact (w post : list ascii) :
  length w = 8%nat → forallb is_digit w = true →
  Re.pattern3 (w ++ post) = Some (take 4 w, take 2 (drop 4 w), drop 6 w).
Proof.
  intros Hl Hd. unfold Re.pattern3.
  rewrite take_app_length' by done. by rewrite Hl, Hd.
Qed.

(** Conversely, a match of pattern 3 is a window of eight digits at the
    head of the text, cut after the fourth and the sixth. *)
Lemma pattern3_sound (s y m d : list ascii) :
  Re.pattern3 s = Some (y, m, d) →
  ∃ rest,
    s = y ++ m ++ d ++ rest
    ∧ length y = 4%nat ∧ length m = 2%nat ∧ length d = 2%nat
    ∧ forallb is_digit (y ++ m ++ d) = true.
Proof.
  unfold Re.pattern3.
  destruct (_ && _) eqn:E; [|done]. intros [= <- <- <-].
  apply andb_true_iff in E as [Hl Hd]. apply Nat.eqb_eq in Hl.
  rewrite length_take in Hl.
  assert (Hw : take 4 (take 8 s) ++ take 2 (drop 4 (take 8 s))
               ++ drop 6 (take 8 s) = take 8 s).
  { rewrite <- (take_drop 4 (take 8 s)) at 4. f_equal.
    rewrite <- (take_drop 2 (drop 4 (take 8 s))) at 2. f_equal.
    by rewrite drop_drop. }
  exists (drop 8 s). split; [|split; [|split; [|split]]].
  - rewrite !app_assoc. rewrite <- (app_assoc (take 4 _)), Hw.
    by rewrite take_drop.
  - rewrite !length_take. lia.
  - rewrite length_take, length_drop, length_take. lia.
  - rewrite length_drop, length_take. lia.
  - by rewrite Hw.
Qed.


(** C10.  When neither the month-name pattern nor the YYYY-MM-DD pattern
    matches, the date comes from the first eight digits of the leftmost run
    of eight or more digits, whatever follows them: it is the date they
    spell as YYYY, MM, DD when that is a calendar date, and absent
    otherwise, no later window being tried. *)
Theorem yyyymmdd_leftmost_window (pre w post : string)
    (Hrule1 : Re.search Re.pattern1 (chars (pre +:+ w +:+ post)) = None)
    (Hrule2 : Re.search Re.pattern2 (chars (pre +:+ w +:+ post)) = None)
    (Hwindow : digits 8 w = true)
    (Hbefore : Re.search Re.pattern3 (chars pre) = None)
    (Hedge : ∀ c, last (chars pre) = Some c → is_digit c = false) :
  let y := int (take 4 (chars w)) in
  let m := int (take 2 (drop 4 (chars w))) in
  let d := int (drop 6 (chars w)) in
  extract_date_from_filename (pre +:+ w +:+ post)
  = if valid_date y m d then Some (mk_datetime y m d 0) else None.
Proof.
  intros y m d. unfold digits in Hwindow.
  apply andb_true_iff in Hwindow as [Hl Hd]. apply Nat.eqb_eq in Hl.
  assert (Hmatch : Re.search Re.pattern3 (chars (pre +:+ w +:+ post))
                   = Some (take 4 (chars w), take 2 (drop 4 (chars w)),
                           drop 6 (chars w))).
  { rewrite !chars_app.
    rewrite search_skip; [by apply search_here, pattern3_exact| |done].
    intros s Hs Hlast. destruct (last s) as [u|] eqn:Eu.
    - apply (pattern3_stable s _ u); [done|].
      apply Hedge. by rewrite <- Hlast.
    - by apply last_None in Eu. }
  unfold extract_date_from_filename.
  rewrite Hrule1, Hrule2, Hmatch. reflexivity.
Qed.

Lemma yyyymmdd_leftmost_window_witness :
  extract_date_from_filename "deciles id202503119999.csv"
  = Some (mk_datetime 2025 3 11 0).
Proof.
  apply (yyyymmdd_leftmost_window "deciles id" "20250311" "9999.csv").
  - reflexivity.
  - reflexivity.
  - reflexivity.
  - reflexivity.
  - intros c [= <-]. reflexivity.
Defined.

(** The first window 20251301 is no calendar date, and the later window
    20250101 is not tried. *)
Example yyyymmdd_invalid_first_window :
  extract_date_from_filename "run1234567 20251301 20250101.csv" = None.
Proof. vm_compute. reflexivity. Qed.

(* ================================================================== *)
(** * Region classification                                         *)
(* ================================================================== *)

(** ** Keywords between word boundaries *)

Lemma last_option_list (prev : option ascii) : last (option_list prev) = prev.
Proof. by destruct prev. Qed.

Lemma last_after (a l : list ascii) (c : ascii) :
  last (a ++ c :: l) = last (c :: l).
Proof.
  induction a as [|x a IH]; [done|].
  change ((x :: a) ++ c :: l) with (x :: (a ++ c :: l)).
  destruct (a ++ c :: l) eqn:E.
  - by apply app_eq_nil in E as [_ ?].
  - by rewrite last_cons_cons.
Qed.

(** The keyword search succeeds exactly when the text splits around a copy
    of the keyword that has a word boundary on either side. *)
Lemma word_search_from_spec (kw s : list ascii) (prev : option ascii) :
  Re.word_search_from kw prev s = true
  ↔ ∃ pre post,
      s = pre ++ kw ++ post
      ∧ Re.boundary (last (option_list prev ++ pre)) (head (kw ++ post)) = true
      ∧ Re.boundary (last (option_list prev ++ pre ++ kw)) (head post) = true.
Proof.
  revert prev. induction s as [|c s IH]; intros prev.
  - cbn [Re.word_search_from]. rewrite orb_false_r. split.
    + intros H. apply andb_true_iff in H as [H H2].
      apply andb_true_iff in H as [H H1].
      apply starts_with_inv in H as [t E].
      symmetry in E. apply app_eq_nil in E as [-> ->].
      exists [], []. simpl in *.
      rewrite ?app_nil_r, ?last_option_list in *. done.
    + intros (pre & post & E & H1 & H2).
      symmetry in E. apply app_eq_nil in E as [-> E].
      apply app_eq_nil in E as [-> ->].
      simpl in *. rewrite ?app_nil_r, ?last_option_list in *.
      by rewrite H1.
  - cbn [Re.word_search_from]. rewrite orb_true_iff, IH. split.
    + intros [H | (pre & post & E & H1 & H2)].
      * apply andb_true_iff in H as [H H2].
        apply andb_true_iff in H as [H H1].
        apply starts_with_inv in H as [t E].
        exists [], t. rewrite E in *.
        rewrite drop_app_length in H2.
        rewrite app_nil_l, app_nil_r, last_option_list. done.
      * exists (c :: pre), post. rewrite E. split; [done|].
        simpl option_list in H1, H2.
        change ([c] ++ pre) with (c :: pre) in H1.
        change ([c] ++ pre ++ kw) with (c :: (pre ++ kw)) in H2.
        change ((c :: pre) ++ kw) with (c :: (pre ++ kw)).
        by rewrite !last_after.
    + intros (pre & post & E & H1 & H2). destruct pre as [|x pre].
      * left. simpl in E. rewrite E.
        rewrite starts_with_app, drop_app_length.
        rewrite app_nil_r, last_option_list in H1.
        rewrite app_nil_l in H2. by rewrite H1, H2.
      * right. injection E as -> ->. exists pre, post. split; [done|].
        change ((x :: pre) ++ kw) with (x :: (pre ++ kw)) in H2.
        rewrite !last_after in H1, H2. done.
Qed.

Ltac in_list :=
  repeat first [apply list_elem_of_here | apply list_elem_of_further].

Lemma first_region_in_table (table : list (string * list string))
    (fl region : string) :
  first_region table fl = Some region → region ∈ map fst table.
Proof.
  induction table as [|[r kws] table IH]; simpl; [done|].
  destruct (existsb _ kws).
  - intros [= ->]. apply list_elem_of_here.
  - intros H. apply list_elem_of_further. auto.
Qed.

Lemma first_region_none (table : list (string * list string)) (fl : string) :
  forallb (fun entry =>
             forallb (fun keyword => negb (Re.word_search keyword fl)) entry.2)
          table = true →
  first_region table fl = None.
Proof.
  induction table as [|[r kws] table IH]; simpl; [done|].
  intros H. apply andb_true_iff in H as [Hk Ht].
  destruct (existsb _ kws) eqn:E; [|auto].
  apply existsb_exists in E as (kw & Hin & Hkw).
  rewrite forallb_forall in Hk. specialize (Hk _ Hin).
  by rewrite Hkw in Hk.
Qed.

(** C3.  A file name that contains "global ex us" or "global ex-us" in any
    letter case is classified as "Global Ex US": the compound phrases are
    tested before the general keyword table, which on its own would give
    "US" for "GLOBAL Ex US Mar 11 2025.xlsx".  That name is classified as
    region "Global Ex US" with the date 2025-03-11. *)
Theorem region_compound_before_keywords
    (filename pre w post : string)
    (Hsplit : filename = pre +:+ w +:+ post)
    (Hphrase : lower w = "global ex us" ∨ lower w = "global ex-us") :
  extract_region_from_filename filename = "Global Ex US"
  ∧ parse_file_metadata "GLOBAL Ex US Mar 11 2025.xlsx"
    = mk_metadata "GLOBAL Ex US Mar 11 2025.xlsx"
        (Some (mk_datetime 2025 3 11 0)) "Global Ex US"
  ∧ first_region REGION_MAPPINGS (lower "GLOBAL Ex US Mar 11 2025.xlsx")
    = Some "US".
Proof.
  split; [|split; vm_compute; reflexivity].
  subst filename. unfold extract_region_from_filename.
  rewrite !lower_app.
  destruct Hphrase as [-> | ->].
  - replace (str_in "global ex us" _) with true; [done|].
    symmetry. apply str_in_spec. eauto.
  - replace (str_in "global ex-us" _) with true.
    + by rewrite orb_true_r.
    + symmetry. apply str_in_spec. eauto.
Qed.

Lemma region_compound_before_keywords_witness :
  extract_region_from_filename "Q3 Global EX-us ranks.csv" = "Global Ex US".
Proof.
  apply (region_compound_before_keywords
           "Q3 Global EX-us ranks.csv" "Q3 " "Global EX-us" " ranks.csv").
  - reflexivity.
  - right. reflexivity.
Defined.

(** C7.  Region classification is total: every file name gets one tag of
    the enumerated set, and the tag is "Unclassified" when no rule
    applies. *)
Theorem region_classification_total (filename : string) :
  extract_region_from_filename filename ∈ REGION_TAGS
  ∧ (no_rule_matches filename = true →
     extract_region_from_filename filename = "Unclassified").
Proof.
  unfold extract_region_from_filename, no_rule_matches. split.
  - repeat (match goal with |- context [if ?b then _ else _] =>
              destruct b end; [in_list|]).
    destruct (first_region REGION_MAPPINGS (lower filename)) as [r|] eqn:E;
      [|in_list].
    apply first_region_in_table in E. simpl in E.
    repeat (apply elem_of_cons in E as [->|E]; [in_list|]).
    by apply elem_of_nil in E.
  - intros H. repeat (apply andb_true_iff in H as [H ?]).
    rewrite (first_region_none REGION_MAPPINGS (lower filename)) by assumption.
    repeat match goal with
           | Hn : negb ?b = true |- _ =>
               apply negb_true_iff in Hn; rewrite Hn
           end.
    reflexivity.
Qed.

Lemma region_classification_total_witness :
  extract_region_from_filename "randomfile.csv" = "Unclassified".
Proof.
  apply (proj2 (region_classification_total "randomfile.csv")).
  vm_compute. reflexivity.
Defined.

(* ================================================================== *)
(** * Schema normaliser                                             *)
(* ================================================================== *)

Lemma canonical_lookup (c : string) :
  c ∈ CANONICAL →
  column_mappings !! strip (lower c) = Some c
  ∨ column_mappings !! strip (lower c) = None.
Proof.
  intros H. unfold CANONICAL in H.
  repeat (apply elem_of_cons in H as [->|H];
          [first [left; vm_compute; reflexivity
                 |right; vm_compute; reflexivity]|]).
  by apply elem_of_nil in H.
Qed.

Lemma add_column_identity (m : gmap string string) (c : string) :
  c ∈ CANONICAL → identity_map m → identity_map (add_column m c).
Proof.
  intros Hc Hm. unfold add_column.
  destruct (canonical_lookup c Hc) as [-> | ->]; [|done].
  intros k std. destruct (decide (c = k)) as [->|Hne].
  - rewrite lookup_insert_eq. congruence.
  - rewrite lookup_insert_ne by done. apply Hm.
Qed.

Lemma new_columns_identity (headers : list string) :
  Forall (fun c => c ∈ CANONICAL) headers →
  identity_map (new_columns_of headers).
Proof.
  unfold new_columns_of.
  assert (Hgen : ∀ m, Forall (fun c => c ∈ CANONICAL) headers →
                      identity_map m → identity_map (foldl add_column m headers)).
  { induction headers as [|c headers IH]; intros m Hall Hm; [done|].
    apply Forall_cons in Hall as [Hc Hall]. simpl.
    apply IH; [done|]. by apply add_column_identity. }
  intros Hall. apply Hgen; [done|].
  intros c std. by rewrite lookup_empty.
Qed.

Lemma rename_identity (m : gmap string string) (df : DataFrame) :
  identity_map m → rename m df = df.
Proof.
  intros Hm. destruct df as [idx d]. unfold rename. simpl. f_equal.
  induction d as [|[h col] d IH]; [done|].
  simpl. rewrite IH. f_equal.
  destruct (m !! h) as [std|] eqn:E; [|done].
  simpl. by rewrite (Hm _ _ E).
Qed.

(** C9.  On a table whose headers are all canonical the rename map sends
    every header it lists to itself, and the table comes back unchanged. *)
Theorem standardize_canonical_identity (df : DataFrame)
    (Hcanonical : Forall (fun c => c ∈ CANONICAL) (columns df)) :
  identity_map (new_columns_of (columns df))
  ∧ standardize_column_names df = df.
Proof.
  pose proof (new_columns_identity _ Hcanonical) as Hid.
  split; [done|].
  unfold standardize_column_names. case_bool_decide; [done|].
  by apply rename_identity.
Qed.

Lemma standardize_canonical_identity_witness :
  standardize_column_names
    (mk_frame [0%nat]
       [ ("Ticker", [Str "F"]); ("Company Name", [Str "Ford Motor Co"]);
         ("Sector", [Str "Industrials"]); ("Current Decile", [Num 2]);
         ("Previous Decile", [Num 5]); ("Decile Change", [Num (-3)]);
         ("Score", [Num 71]); ("Market Cap (Bn)", [Num 48]) ])
  = mk_frame [0%nat]
       [ ("Ticker", [Str "F"]); ("Company Name", [Str "Ford Motor Co"]);
         ("Sector", [Str "Industrials"]); ("Current Decile", [Num 2]);
         ("Previous Decile", [Num 5]); ("Decile Change", [Num (-3)]);
         ("Score", [Num 71]); ("Market Cap (Bn)", [Num 48]) ].
Proof.
  apply standardize_canonical_identity.
  unfold columns, CANONICAL. simpl.
  repeat (apply Forall_cons; split; [in_list|]).
  apply Forall_nil_2.
Defined.

(* ================================================================== *)
(** * Data frames                                                   *)
(* ================================================================== *)

Section FrameFacts.

Implicit Types (df : DataFrame) (c : string) (v : list cell).

Lemma mapM_ok {A B} (f : A → result B) (g : A → B) (l : list A) :
  Forall (fun x => f x = Ok (g x)) l → mapM f l = Ok (map g l).
Proof.
  induction 1 as [|x l Hx _ IH]; [done|].
  cbn. rewrite Hx. cbn. rewrite IH. done.
Qed.

Lemma has_column_true df c : has_column df c = true ↔ c ∈ columns df.
Proof. unfold has_column. apply bool_decide_eq_true. Qed.

Lemma has_column_false df c : has_column df c = false ↔ c ∉ columns df.
Proof. unfold has_column. apply bool_decide_eq_false. Qed.

Lemma filter_header_nil (l : list (string * list cell)) c :
  c ∉ map fst l → filter (fun p => p.1 = c) l = [].
Proof.
  induction l as [|p l IH]; intros Hn; [done|].
  rewrite filter_cons. simpl in Hn.
  apply not_elem_of_cons in Hn as [Hp Hl].
  destruct (decide (p.1 = c)); [congruence|auto].
Qed.

Lemma getitem_missing df c :
  has_column df c = false → getitem df c = Raise (KeyError c).
Proof.
  intros H. apply has_column_false in H. unfold getitem.
  by rewrite filter_header_nil.
Qed.

Lemma getitem_ok_has_column df c v :
  getitem df c = Ok v → has_column df c = true.
Proof.
  intros H. destruct (has_column df c) eqn:E; [done|].
  rewrite getitem_missing in H; done.
Qed.

Lemma columns_setitem df c v :
  columns (setitem df c v)
  = if has_column df c then columns df else columns df ++ [c].
Proof.
  unfold setitem, columns. destruct (has_column df c) eqn:E; simpl.
  - rewrite map_map. apply map_ext. intros p.
    case_bool_decide; simpl; congruence.
  - by rewrite map_app.
Qed.

Lemma has_column_setitem_ne df c c' v :
  c ≠ c' → has_column (setitem df c' v) c = has_column df c.
Proof.
  intros Hne. destruct (has_column df c) eqn:E.
  - apply has_column_true. apply has_column_true in E.
    rewrite columns_setitem. destruct (has_column df c'); [done|].
    apply elem_of_app. by left.
  - apply has_column_false. apply has_column_false in E.
    rewrite columns_setitem. destruct (has_column df c'); [done|].
    rewrite elem_of_app, list_elem_of_singleton. intros [?|?]; done.
Qed.

Lemma getitem_setitem_ne df c c' v :
  c ≠ c' → getitem (setitem df c' v) c = getitem df c.
Proof.
  intros Hne. unfold getitem, setitem.
  destruct (has_column df c'); simpl.
  - replace (filter (fun p => p.1 = c) (map _ (data df)))
      with (filter (fun p => p.1 = c) (data df)); [done|].
    induction (data df) as [|p l IH]; [done|].
    simpl. rewrite !filter_cons. rewrite IH.
    case_bool_decide as Hp; simpl; [|done].
    destruct (decide (p.1 = c)); [congruence|].
    destruct (decide (c' = c)); [congruence|done].
  - rewrite filter_app, filter_cons, filter_nil. simpl.
    destruct (decide (c' = c)); [congruence|].
    by rewrite app_nil_r.
Qed.

Lemma getitem_setitem_new df c v :
  has_column df c = false → getitem (setitem df c v) c = Ok v.
Proof.
  intros H. unfold getitem, setitem. rewrite H. simpl.
  rewrite filter_app, filter_cons, filter_nil. simpl.
  rewrite decide_True by done.
  apply has_column_false in H. by rewrite filter_header_nil.
Qed.

Lemma len_setitem df c v : len (setitem df c v) = len df.
Proof. unfold setitem. by destruct (has_column df c). Qed.

Lemma wf_setitem df c v :
  wf df → length v = len df → wf (setitem df c v).
Proof.
  unfold wf. intros Hwf Hv. rewrite len_setitem.
  unfold setitem. destruct (has_column df c); simpl.
  - apply Forall_map. eapply Forall_impl; [exact Hwf|].
    intros p Hp. by case_bool_decide.
  - apply Forall_app. split; [done|]. by apply Forall_singleton.
Qed.

Lemma wf_rename (m : gmap string string) df : wf df → wf (rename m df).
Proof.
  unfold wf, rename, len. simpl. intros H. apply Forall_map.
  eapply Forall_impl; [exact H|]. done.
Qed.

Lemma keep_nil {A} (mask : list bool) : keep mask (@nil A) = [].
Proof. by destruct mask as [|[] ?]. Qed.

(** Selecting rows of a frame without rows gives the frame back. *)
Lemma select_rows_no_rows df mask :
  wf df → index df = [] → select_rows df mask = df.
Proof.
  destruct df as [idx d]. unfold wf, len, select_rows. simpl.
  intros Hwf ->. rewrite keep_nil. f_equal.
  induction d as [|[h col] d IH]; [done|].
  apply Forall_cons in Hwf as [Hcol Hd]. simpl in *.
  destruct col; [|done]. rewrite keep_nil, IH; done.
Qed.

(** A row is selected exactly when its position is marked. *)
Lemma elem_of_keep {A} (mask : list bool) (l : list A) (x : A) :
  x ∈ keep mask l ↔ ∃ i, l !! i = Some x ∧ mask !! i = Some true.
Proof.
  revert l. induction mask as [|b mask IH]; intros l.
  - simpl. split; [by intros ?%elem_of_nil|]. by intros (i & _ & ?).
  - destruct l as [|y l]; simpl.
    + split; [by intros ?%elem_of_nil|]. by intros (i & ? & _).
    + destruct b.
      * rewrite elem_of_cons, IH. split.
        -- intros [->|(i & ? & ?)]; [by exists 0%nat|by exists (S i)].
        -- intros ([|i] & Hl & Hm); simpl in *; [left; congruence|].
           right. eauto.
      * rewrite IH. split.
        -- intros (i & ? & ?). by exists (S i).
        -- intros ([|i] & Hl & Hm); simpl in *; [done|eauto].
Qed.

End FrameFacts.

(* ================================================================== *)
(** * Record enricher                                               *)
(* ================================================================== *)

Lemma int64_wrap_small (n : Z) :
  -9223372036854775808 <= n <= 9223372036854775807 → int64_wrap n = n.
Proof. intros H. unfold int64_wrap. rewrite Z.mod_small; lia. Qed.

Lemma exact_number_guards (col : list cell) :
  Forall exact_number col →
  existsb is_stamp col = false
  ∧ numbers in_int64 col = true
  ∧ numbers float_exact col = true.
Proof.
  unfold numbers, in_int64, float_exact.
  induction 1 as [|c col Hc _ (IH1 & IH2 & IH3)]; [done|].
  cbn [existsb forallb]. rewrite IH1, IH2, IH3.
  destruct c as [|n| |]; try done. simpl in Hc.
  split; [done|]. split; rewrite andb_true_r; apply andb_true_iff; lia.
Qed.

Lemma cell_sub_exact (cur prev : list cell) :
  Forall exact_number cur → Forall exact_number prev →
  mapM (fun p => cell_sub p.1 p.2) (zip cur prev)
  = Ok (zip_with difference cur prev).
Proof.
  intros Hc. revert prev.
  induction Hc as [|c cur Hn _ IH]; intros prev Hp; [done|].
  destruct Hp as [|p prev Hnp Hp]; [done|].
  cbn. specialize (IH prev Hp).
  destruct c as [|x| |], p as [|y| |]; try done; cbn; rewrite IH; try done.
  simpl in Hn, Hnp. cbn. by rewrite int64_wrap_small by lia.
Qed.

(** On decile columns of numbers in range and missing values the
    subtraction of the columns is the difference row by row. *)
Lemma series_sub_numeric (cur prev : list cell) :
  Forall exact_number cur → Forall exact_number prev →
  series_sub cur prev = Ok (zip_with difference cur prev).
Proof.
  intros Hc Hp. unfold series_sub.
  destruct (exact_number_guards cur Hc) as (-> & Hci & Hcf).
  destruct (exact_number_guards prev Hp) as (-> & Hpi & Hpf).
  cbn [orb]. cbv zeta.
  destruct (dtype_of cur), (dtype_of prev);
    rewrite ?Hci, ?Hpi, ?Hcf, ?Hpf; cbn [andb];
    by apply cell_sub_exact.
Qed.

Lemma length_zip_with_difference (cur prev : list cell) (n : nat) :
  length cur = n → length prev = n → length (zip_with difference cur prev) = n.
Proof. intros Hc Hp. rewrite length_zip_with; lia. Qed.

Lemma getitem_length (df : DataFrame) (c : string) (v : list cell) :
  wf df → getitem df c = Ok v → length v = len df.
Proof.
  unfold wf, getitem. intros Hwf H.
  assert (Hsub : Forall (fun p => length p.2 = len df)
                        (filter (fun p => p.1 = c) (data df))).
  { apply Forall_forall. intros p Hp. apply list_elem_of_filter in Hp as [_ Hp].
    rewrite Forall_forall in Hwf. auto. }
  destruct (filter _ (data df)) as [|[h col] [|? ?]]; try done.
  injection H as ->. by apply Forall_cons in Hsub as [? _].
Qed.

Lemma wf_standardize (df : DataFrame) :
  wf df → wf (standardize_column_names df).
Proof.
  intros H. unfold standardize_column_names.
  case_bool_decide; [done|]. by apply wf_rename.
Qed.

Lemma len_standardize (df : DataFrame) :
  len (standardize_column_names df) = len df.
Proof. unfold standardize_column_names. by case_bool_decide. Qed.

(** C5.  The columns are those the table has once its headers are
    normalised.  Without a "Decile Change" column and with both decile
    columns, whose cells are deciles (integers of the range every numeric
    dtype subtracts exactly, the deciles 1 to 10 among them) or missing,
    every row of the result has
    Decile Change = Current Decile - Previous Decile; when a decile column
    is missing, the result has no "Decile Change" column either.  Current
    Decile 2 and Previous Decile 5 give Decile Change -3. *)
Theorem decile_change_derived (df : DataFrame) (region : string)
    (file_date : option datetime) (now : datetime)
    (Hwf : wf df)
    (Hrows : empty df = false)
    (Hchange : has_column (standardize_column_names df) "Decile Change" = false) :
  (∀ cur prev,
     getitem (standardize_column_names df) "Current Decile" = Ok cur →
     getitem (standardize_column_names df) "Previous Decile" = Ok prev →
     Forall exact_number cur → Forall exact_number prev →
     ∃ out,
       process_file_data (Some df) region file_date now = Ok (Some out)
       ∧ wf out ∧ len out = len df
       ∧ getitem out "Current Decile" = Ok cur
       ∧ getitem out "Previous Decile" = Ok prev
       ∧ getitem out "Decile Change" = Ok (zip_with difference cur prev))
  ∧ (has_column (standardize_column_names df) "Current Decile" = false
     ∨ has_column (standardize_column_names df) "Previous Decile" = false →
     ∃ out,
       process_file_data (Some df) region file_date now = Ok (Some out)
       ∧ has_column out "Decile Change" = false)
  ∧ process_file_data
      (Some (mk_frame [0%nat]
               [("Current Decile", [Num 2]); ("Previous Decile", [Num 5])]))
      region file_date now
    = Ok (Some (mk_frame [0%nat]
                  [("Current Decile", [Num 2]); ("Previous Decile", [Num 5]);
                   ("Region", [Str region]);
                   ("File Date", [Stamp (default now file_date)]);
                   ("Decile Change", [Num (-3)])])).
Proof.
  set (std := standardize_column_names df) in *.
  set (df1 := setitem_scalar std "Region" (Str region)).
  set (df2 := setitem_scalar df1 "File Date" (Stamp (default now file_date))).
  assert (Hhas : ∀ c, c ≠ "Region" → c ≠ "File Date" →
                      has_column df2 c = has_column std c).
  { intros c H1 H2. unfold df2, df1, setitem_scalar.
    by rewrite !has_column_setitem_ne. }
  assert (Hget : ∀ c, c ≠ "Region" → c ≠ "File Date" →
                      getitem df2 c = getitem std c).
  { intros c H1 H2. unfold df2, df1, setitem_scalar.
    by rewrite !getitem_setitem_ne. }
  assert (Hlen : len df2 = len df).
  { unfold df2, df1, setitem_scalar. rewrite !len_setitem.
    apply len_standardize. }
  assert (Hwf2 : wf df2).
  { unfold df2, df1, setitem_scalar.
    apply wf_setitem; [apply wf_setitem|].
    - by apply wf_standardize.
    - by rewrite length_replicate.
    - by rewrite length_replicate. }
  assert (Hrun : process_file_data (Some df) region file_date now
                 = if negb (has_column df2 "Decile Change")
                      && has_column df2 "Current Decile"
                      && has_column df2 "Previous Decile"
                   then
                     current ← getitem df2 "Current Decile";
                     previous ← getitem df2 "Previous Decile";
                     change ← series_sub current previous;
                     Ok (Some (setitem df2 "Decile Change" change))
                   else Ok (Some df2)).
  { unfold process_file_data. by rewrite Hrows. }
  assert (Hdc : has_column df2 "Decile Change" = false).
  { by rewrite Hhas. }
  split; [|split; [|reflexivity]].
  - intros cur prev Hcur Hprev Hncur Hnprev.
    exists (setitem df2 "Decile Change" (zip_with difference cur prev)).
    split; [|split; [|split; [|split; [|split]]]].
    + rewrite Hrun, Hdc, !Hhas by done.
      rewrite (getitem_ok_has_column _ _ _ Hcur).
      rewrite (getitem_ok_has_column _ _ _ Hprev).
      rewrite !Hget by done. rewrite Hcur, Hprev. cbn.
      by rewrite series_sub_numeric.
    + apply wf_setitem; [done|].
      apply length_zip_with_difference.
      * eapply getitem_length; [exact Hwf2|]. by rewrite Hget.
      * eapply getitem_length; [exact Hwf2|]. by rewrite Hget.
    + by rewrite len_setitem.
    + rewrite getitem_setitem_ne by done. by rewrite Hget.
    + rewrite getitem_setitem_ne by done. by rewrite Hget.
    + by apply getitem_setitem_new.
  - intros Hmissing. exists df2. split; [|done].
    rewrite Hrun, Hdc, !Hhas by done.
    destruct Hmissing as [-> | ->]; [done|].
    by rewrite andb_false_r.
Qed.

Lemma decile_change_derived_witness :
  ∃ out,
    process_file_data
      (Some (mk_frame [0%nat; 1%nat]
               [("Symbol", [Str "F"; Str "TM"]);
                ("decile", [Num 2; Num 9]);
                ("Prev Decile", [Num 5; NaN])]))
      "US" None (mk_datetime 2026 1 8 0)
    = Ok (Some out)
    ∧ getitem out "Decile Change" = Ok [Num (-3); NaN].
Proof.
  destruct (decile_change_derived
              (mk_frame [0%nat; 1%nat]
                 [("Symbol", [Str "F"; Str "TM"]);
                  ("decile", [Num 2; Num 9]);
                  ("Prev Decile", [Num 5; NaN])])
              "US" None (mk_datetime 2026 1 8 0)) as [Hderive _].
  - unfold wf, len. simpl. repeat (apply Forall_cons; split; [reflexivity|]).
    apply Forall_nil_2.
  - reflexivity.
  - vm_compute. reflexivity.
  - destruct (Hderive [Num 2; Num 9] [Num 5; NaN]) as (out & Hrun & _ & _ & _ & _ & Hchange).
    + vm_compute. reflexivity.
    + vm_compute. reflexivity.
    + repeat (apply Forall_cons; split; [first [exact I | cbn; lia]|]).
      apply Forall_nil_2.
    + repeat (apply Forall_cons; split; [first [exact I | cbn; lia]|]).
      apply Forall_nil_2.
    + exists out. split; [exact Hrun | exact Hchange].
Defined.

(* ================================================================== *)
(** * Filter engine                                                 *)
(* ================================================================== *)

(** Every filter hands an empty table back, whatever its arguments. *)
Lemma filters_on_empty (df : DataFrame) :
  empty df = true →
  (∀ region, filter_by_region df region = Ok df)
  ∧ (∀ sector, filter_by_sector df sector = Ok df)
  ∧ (∀ start_date end_date, filter_by_date_range df start_date end_date = Ok df)
  ∧ (∀ criteria, filter_by_decile_criteria df criteria = Ok df)
  ∧ (∀ search_term, filter_by_search df search_term = Ok df).
Proof.
  intros H. repeat split; intros;
    unfold filter_by_region, filter_by_sector, filter_by_date_range,
      filter_by_decile_criteria, filter_by_search;
    by rewrite H.
Qed.

(** The search ignores letter case. *)
Example search_ford :
  filter_by_search
    (mk_frame [0%nat; 1%nat]
       [("Ticker", [Str "F"; Str "TM"]);
        ("Company Name", [Str "Ford Motor Co"; Str "Toyota Motor"])])
    "ford"
  = Ok (mk_frame [0%nat]
          [("Ticker", [Str "F"]); ("Company Name", [Str "Ford Motor Co"])]).
Proof. vm_compute. reflexivity. Qed.

Lemma compare_numeric (op : Z → Z → bool) (k : Z) (col : list cell) :
  Forall numeric col →
  mapM (cell_compare op k) col = Ok (map (number_where op k) col).
Proof.
  intros H. apply mapM_ok. eapply Forall_impl; [exact H|].
  by intros [].
Qed.

Lemma top2_mask (cur prev : list cell) :
  zip_with andb (map (number_where Z.leb 2) cur)
                (map (number_where Z.gtb 2) prev)
  = zip_with entering_top2 cur prev.
Proof.
  revert prev. induction cur as [|c cur IH]; intros [|p prev]; simpl; try done.
  rewrite IH. f_equal. destruct c, p; simpl; try done; apply andb_false_r.
Qed.

(** C8.  "Entering Top 2 Deciles" selects exactly the rows with
    Current Decile <= 2 and Previous Decile > 2: of the rows (2, 3) and
    (2, 1) it keeps the first only. *)
Theorem entering_top2_exact (df : DataFrame) (cur prev : list cell)
    (Hwf : wf df)
    (Hcur : getitem df "Current Decile" = Ok cur)
    (Hprev : getitem df "Previous Decile" = Ok prev)
    (Hncur : Forall numeric cur)
    (Hnprev : Forall numeric prev) :
  filter_by_decile_criteria df "Entering Top 2 Deciles"
  = Ok (select_rows df (zip_with entering_top2 cur prev))
  ∧ (∀ c p, entering_top2 c p = true
            ↔ ∃ x y, c = Num x ∧ p = Num y ∧ x <= 2 ∧ y > 2)
  ∧ filter_by_decile_criteria
      (mk_frame [0%nat; 1%nat]
         [("Current Decile", [Num 2; Num 2]);
          ("Previous Decile", [Num 3; Num 1])])
      "Entering Top 2 Deciles"
    = Ok (mk_frame [0%nat]
            [("Current Decile", [Num 2]); ("Previous Decile", [Num 3])]).
Proof.
  split; [|split; [|vm_compute; reflexivity]].
  - unfold filter_by_decile_criteria.
    destruct (empty df) eqn:Hempty.
    + f_equal. symmetry. apply select_rows_no_rows; [done|].
      unfold empty in Hempty. apply orb_true_iff in Hempty as [H|H].
      * by destruct (index df).
      * unfold getitem in Hcur. by destruct (data df).
    + rewrite bool_decide_eq_false_2 by done.
      rewrite bool_decide_eq_true_2 by done.
      rewrite Hcur. cbn. rewrite (compare_numeric _ _ _ Hncur). cbn.
      rewrite Hprev. cbn. rewrite (compare_numeric _ _ _ Hnprev). cbn.
      by rewrite top2_mask.
  - intros c p. split.
    + destruct c as [|x| |], p as [|y| |]; simpl; try done.
      intros H. apply andb_true_iff in H as [Hx Hy].
      exists x, y. repeat split; lia.
    + intros (x & y & -> & -> & Hx & Hy). simpl.
      apply andb_true_iff. split; lia.
Qed.

Lemma entering_top2_exact_witness :
  filter_by_decile_criteria
    (mk_frame [4%nat; 7%nat]
       [("Ticker", [Str "F"; Str "TM"]);
        ("Current Decile", [Num 1; NaN]);
        ("Previous Decile", [Num 6; Num 4])])
    "Entering Top 2 Deciles"
  = Ok (select_rows
          (mk_frame [4%nat; 7%nat]
             [("Ticker", [Str "F"; Str "TM"]);
              ("Current Decile", [Num 1; NaN]);
              ("Previous Decile", [Num 6; Num 4])])
          (zip_with entering_top2 [Num 1; NaN] [Num 6; Num 4])).
Proof.
  apply entering_top2_exact.
  - unfold wf, len. simpl. repeat (apply Forall_cons; split; [reflexivity|]).
    apply Forall_nil_2.
  - reflexivity.
  - reflexivity.
  - repeat (apply Forall_cons; split; [exact I|]). apply Forall_nil_2.
  - repeat (apply Forall_cons; split; [exact I|]). apply Forall_nil_2.
Defined.

Lemma keep_none {A} (l : list A) (n : nat) : keep (replicate n false) l = [].
Proof.
  revert l. induction n as [|n IH]; intros [|x l]; simpl; auto.
Qed.

Lemma no_rows_len (df : DataFrame) : len (no_rows df) = 0%nat.
Proof. unfold no_rows, select_rows, len. simpl. by rewrite keep_none. Qed.

Lemma no_rows_columns (df : DataFrame) : columns (no_rows df) = columns df.
Proof.
  unfold no_rows, select_rows, columns. simpl. rewrite map_map.
  by apply map_ext.
Qed.

(** C2, counterexample.  A table with rows and without the columns Ticker
    and Company Name is not passed through by the search filter, which
    returns no row of it; and the decile-movement filter raises KeyError on
    a table with rows that lacks the Decile Change column. *)
Lemma missing_column_not_passed_through :
  let df := mk_frame [0%nat; 1%nat] [("Sector", [Str "Energy"; Str "Utilities"])] in
  empty df = false
  ∧ has_column df "Ticker" = false
  ∧ has_column df "Company Name" = false
  ∧ has_column df "Decile Change" = false
  ∧ filter_by_search df "ford" = Ok (mk_frame [] [("Sector", [])])
  ∧ filter_by_search df "ford" ≠ Ok df
  ∧ filter_by_decile_criteria df "Moving +3 Deciles"
    = Raise (KeyError "Decile Change").
Proof. vm_compute. repeat split; done. Qed.

(** C2, amended.  The region, sector and date-range filters return the
    table unchanged when the column they test is missing, and so does the
    decile-movement filter for "All Decile Movements".  The search filter
    with a term that is not empty, on a table with rows labelled
    0, 1, ..., n-1 that has neither Ticker nor Company Name, raises nothing
    and returns the table with no row. *)
Theorem filters_on_missing_column (df : DataFrame) :
  (∀ region, has_column df "Region" = false →
             filter_by_region df region = Ok df)
  ∧ (∀ sector, has_column df "Sector" = false →
               filter_by_sector df sector = Ok df)
  ∧ (∀ start_date end_date, has_column df "File Date" = false →
       filter_by_date_range df start_date end_date = Ok df)
  ∧ filter_by_decile_criteria df "All Decile Movements" = Ok df
  ∧ (∀ search_term,
       empty df = false →
       search_term ≠ EmptyString →
       index df = seq 0 (len df) →
       has_column df "Ticker" = false →
       has_column df "Company Name" = false →
       filter_by_search df search_term = Ok (no_rows df)
       ∧ len (no_rows df) = 0%nat
       ∧ columns (no_rows df) = columns df).
Proof.
  split; [|split; [|split; [|split]]].
  - intros region H. unfold filter_by_region. rewrite H. simpl.
    by rewrite !orb_true_r.
  - intros sector H. unfold filter_by_sector. rewrite H. simpl.
    by rewrite !orb_true_r.
  - intros s e H. unfold filter_by_date_range. rewrite H. simpl.
    by rewrite orb_true_r.
  - unfold filter_by_decile_criteria. by destruct (empty df).
  - intros term Hrows Hterm Hindex Hticker Hname.
    split; [|split; [apply no_rows_len|apply no_rows_columns]].
    unfold filter_by_search. rewrite Hrows, Hticker, Hname. simpl.
    rewrite bool_decide_eq_false_2 by done. cbn.
    unfold getitem_bool. simpl.
    by rewrite bool_decide_eq_true_2.
Qed.

Lemma filters_on_missing_column_witness :
  filter_by_search
    (mk_frame [0%nat; 1%nat] [("Sector", [Str "Energy"; Str "Utilities"])])
    "ford"
  = Ok (no_rows
          (mk_frame [0%nat; 1%nat]
             [("Sector", [Str "Energy"; Str "Utilities"])])).
Proof.
  apply (filters_on_missing_column
           (mk_frame [0%nat; 1%nat]
              [("Sector", [Str "Energy"; Str "Utilities"])])).
  - reflexivity.
  - discriminate.
  - reflexivity.
  - reflexivity.
  - reflexivity.
Defined.

(** C4.  At the search term "nan" the search filter keeps a row whose
    Ticker and Company Name are both missing: [astype(str)] has turned the
    missing values into the text "nan" before [contains(..., na=False)]
    looks at them. *)
Theorem search_keeps_row_without_fields :
  let df := mk_frame [0%nat]
              [("Ticker", [NaN]); ("Company Name", [NaN]);
               ("Region", [Str "US"])] in
  filter_by_search df "nan" = Ok df
  ∧ filter_by_search df "a" = Ok df
  ∧ filter_by_search df "ford" = Ok (no_rows df).
Proof. vm_compute. repeat split; reflexivity. Qed.

(** C6.  The result depends on the order of the five filters.  On a
    dataset without a Decile Change column, with a region that selects no
    row, the decile-movement filter hands the empty table on when it comes
    after the region filter and raises KeyError when it comes first. *)
Theorem filter_order_matters :
  let first := mk_datetime 2025 1 1 0 in
  let last := mk_datetime 2026 12 31 0 in
  let region_first :=
    [ ByRegion "Japan"; BySector "All Sectors"; ByDateRange first last;
      ByDecile "Moving +3 Deciles"; BySearch "ford" ] in
  let decile_first :=
    [ ByDecile "Moving +3 Deciles"; ByRegion "Japan"; BySector "All Sectors";
      ByDateRange first last; BySearch "ford" ] in
  region_first ≡ₚ decile_first
  ∧ apply_filters region_first dataset_without_change
    = Ok (no_rows dataset_without_change)
  ∧ apply_filters decile_first dataset_without_change
    = Raise (KeyError "Decile Change").
Proof.
  intros first last region_first decile_first. split.
  - unfold region_first, decile_first.
    symmetry.
    exact (Permutation_middle
             [ByRegion "Japan"; BySector "All Sectors"; ByDateRange first last]
             [BySearch "ford"] (ByDecile "Moving +3 Deciles")).
  - vm_compute. split; reflexivity.
Qed.

(** The search filter is sensitive to what ran before it even when nothing
    raises.  Its fresh mask is labelled 0 .. len(df)-1, and the OR with the
    Ticker hits aligns on row labels: the Japan row keeps its label 1 after
    the region filter, the mask of length 1 has no label 1, and the hit on
    the ticker "tm" is lost.  A hit on the company name survives, since the
    second OR finds every label on its left. *)
Lemma search_after_region_loses_ticker :
  (df ← filter_by_search dataset_two_regions "tm"; filter_by_region df "Japan")
  = Ok (select_rows dataset_two_regions [false; true])
  ∧ (df ← filter_by_region dataset_two_regions "Japan"; filter_by_search df "tm")
    = Ok (no_rows dataset_two_regions)
  ∧ (df ← filter_by_region dataset_two_regions "Japan";
     filter_by_search df "toyota")
    = Ok (select_rows dataset_two_regions [false; true]).
Proof. vm_compute. repeat split; reflexivity. Qed.

(* ================================================================== *)
(** * Date extraction: the three rules                                  *)
(* ================================================================== *)

(** The date the month-name rule yields: the leftmost match of pattern 1,
    when its word is a month name and the date exists. *)
Definition month_name_rule (filename : string) : option datetime :=
  match Re.search Re.pattern1 (chars filename) with
  | Some (g1, g2, g3) =>
      match MONTH_MAPPINGS !! lower (of_chars g1) with
      | Some month => datetime_new (int g3) month (int g2)
      | None => None
      end
  | None => None
  end.

(** The date the YYYY-MM-DD rule yields. *)
Definition iso_rule (filename : string) : option datetime :=
  Re.search Re.pattern2 (chars filename) ≫= date_of_groups.

(** The date the YYYYMMDD rule yields. *)
Definition compact_rule (filename : string) : option datetime :=
  Re.search Re.pattern3 (chars filename) ≫= date_of_groups.

Lemma extract_date_rules (filename : string) :
  extract_date_from_filename filename
  = match month_name_rule filename with
    | Some d => Some d
    | None =>
        match iso_rule filename with
        | Some d => Some d
        | None => compact_rule filename
        end
    end.
Proof. reflexivity. Qed.

Lemma datetime_new_valid (y m d : Z) (x : datetime) :
  datetime_new y m d = Some x →
  valid_date (year x) (month x) (day x) = true ∧ tod x = 0.
Proof.
  unfold datetime_new. destruct (valid_date y m d) eqn:E; [|done].
  by intros [= <-].
Qed.

Lemma days_in_month_le (y m : Z) : days_in_month y m <= 31.
Proof.
  unfold days_in_month. destruct m as [|p|p]; [lia| |lia].
  do 5 (try (destruct p as [p|p|]; try lia));
    destruct (is_leap y); lia.
Qed.

(** Every date the extraction returns is a date of the calendar, at
    midnight: years 1 to 9999, months 1 to 12, a day the month has. *)
Theorem extracted_date_is_calendar_date (filename : string) (x : datetime) :
  extract_date_from_filename filename = Some x →
  valid_date (year x) (month x) (day x) = true
  ∧ tod x = 0
  ∧ 1 <= month x <= 12
  ∧ 1 <= day x <= 31.
Proof.
  intros H.
  assert (Hv : valid_date (year x) (month x) (day x) = true ∧ tod x = 0).
  { rewrite extract_date_rules in H.
    unfold month_name_rule, iso_rule, compact_rule in H.
    destruct (Re.search Re.pattern1 _) as [[[g1 g2] g3]|].
    - destruct (MONTH_MAPPINGS !! _) as [mon|].
      + destruct (datetime_new (int g3) mon (int g2)) eqn:E.
        * injection H as <-. by eapply datetime_new_valid.
        * destruct (Re.search Re.pattern2 _) as [[[y m] d]|]; simpl in H.
          -- destruct (datetime_new (int y) (int m) (int d)) eqn:E2.
             ++ injection H as <-. by eapply datetime_new_valid.
             ++ destruct (Re.search Re.pattern3 _) as [[[y' m'] d']|];
                  simpl in H; [by eapply datetime_new_valid|done].
          -- destruct (Re.search Re.pattern3 _) as [[[y' m'] d']|];
               simpl in H; [by eapply datetime_new_valid|done].
      + destruct (Re.search Re.pattern2 _) as [[[y m] d]|]; simpl in H.
        * destruct (datetime_new (int y) (int m) (int d)) eqn:E2.
          -- injection H as <-. by eapply datetime_new_valid.
          -- destruct (Re.search Re.pattern3 _) as [[[y' m'] d']|];
               simpl in H; [by eapply datetime_new_valid|done].
        * destruct (Re.search Re.pattern3 _) as [[[y' m'] d']|];
            simpl in H; [by eapply datetime_new_valid|done].
    - destruct (Re.search Re.pattern2 _) as [[[y m] d]|]; simpl in H.
      + destruct (datetime_new (int y) (int m) (int d)) eqn:E2.
        * injection H as <-. by eapply datetime_new_valid.
        * destruct (Re.search Re.pattern3 _) as [[[y' m'] d']|];
            simpl in H; [by eapply datetime_new_valid|done].
      + destruct (Re.search Re.pattern3 _) as [[[y' m'] d']|];
          simpl in H; [by eapply datetime_new_valid|done]. }
  destruct Hv as [Hv Ht]. split; [done|]. split; [done|].
  unfold valid_date in Hv.
  repeat (apply andb_true_iff in Hv as [Hv ?]).
  pose proof (days_in_month_le (year x) (month x)). lia.
Qed.

Lemma extracted_date_is_calendar_date_witness :
  valid_date 2025 3 11 = true ∧ 0 = 0 ∧ 1 <= 3 <= 12 ∧ 1 <= 11 <= 31.
Proof.
  apply (extracted_date_is_calendar_date
           "S&P500 March 11 2025.xlsx" (mk_datetime 2025 3 11 0)).
  vm_compute. reflexivity.
Defined.

(** ** Pattern 2 *)

(** A pattern without a match at the first [n] positions has its leftmost
    match in what follows them. *)
Lemma search_drop {A} (f : list ascii → option A) (n : nat) (s : list ascii) :
  (∀ i, (i < n)%nat → f (drop i s) = None) →
  Re.search f s = Re.search f (drop n s).
Proof.
  revert s. induction n as [|n IH]; intros s H; [done|].
  pose proof (H 0%nat ltac:(lia)) as H0. rewrite drop_0 in H0.
  destruct s as [|c s].
  - done.
  - cbn [Re.search]. rewrite H0. cbn [drop]. apply IH.
    intros i Hi. apply (H (S i)). lia.
Qed.

(** The YYYY-MM-DD rule.  When the month-name rule yields no date, a file
    name that reads: prefix, four digits, hyphen, two digits, hyphen, two
    digits, anything, gives that date if it is a calendar date, provided
    pattern 2 matches at no position of the name inside the prefix, that
    is, provided these ten characters are its leftmost match. *)
Theorem iso_date_leftmost (pre y m d post : string)
    (Hmonth : month_name_rule (pre +:+ y +:+ "-" +:+ m +:+ "-" +:+ d +:+ post)
              = None)
    (Hy : digits 4 y = true)
    (Hm : digits 2 m = true)
    (Hd : digits 2 d = true)
    (Hvalid : valid_date (int (chars y)) (int (chars m)) (int (chars d)) = true)
    (Hleftmost :
       ∀ i, (i < length (chars pre))%nat →
            Re.pattern2
              (drop i (chars (pre +:+ y +:+ "-" +:+ m +:+ "-" +:+ d +:+ post)))
            = None) :
  extract_date_from_filename
    (pre +:+ y +:+ "-" +:+ m +:+ "-" +:+ d +:+ post)
  = Some (mk_datetime (int (chars y)) (int (chars m)) (int (chars d)) 0).
Proof.
  rewrite extract_date_rules, Hmonth. unfold iso_rule.
  unfold digits in Hy, Hm, Hd.
  apply andb_true_iff in Hy as [Hyl Hyd]. apply Nat.eqb_eq in Hyl.
  apply andb_true_iff in Hm as [Hml Hmd]. apply Nat.eqb_eq in Hml.
  apply andb_true_iff in Hd as [Hdl Hdd]. apply Nat.eqb_eq in Hdl.
  assert (Hmatch : Re.search Re.pattern2
            (chars (pre +:+ y +:+ "-" +:+ m +:+ "-" +:+ d +:+ post))
          = Some (chars y, chars m, chars d)).
  { rewrite (search_drop _ (length (chars pre)) _ Hleftmost).
    rewrite (chars_app pre), drop_app_length. rewrite !chars_app.
    apply search_here.
    destruct (chars y) as [|y1 [|y2 [|y3 [|y4 [|]]]]]; try done.
    destruct (chars m) as [|m1 [|m2 [|]]]; try done.
    destruct (chars d) as [|d1 [|d2 [|]]]; try done.
    simpl in *. unfold Re.pattern2.
    repeat (apply andb_true_iff in Hyd as [? Hyd]).
    repeat (apply andb_true_iff in Hmd as [? Hmd]).
    repeat (apply andb_true_iff in Hdd as [? Hdd]).
    simpl. by repeat match goal with H : is_digit _ = true |- _ =>
                        rewrite H; clear H end. }
  rewrite Hmatch. simpl. unfold datetime_new. by rewrite Hvalid.
Qed.

Lemma iso_date_leftmost_witness :
  extract_date_from_filename "deciles-2025-03-11.csv"
  = Some (mk_datetime 2025 3 11 0).
Proof.
  apply (iso_date_leftmost "deciles-" "2025" "03" "11" ".csv").
  - reflexivity.
  - reflexivity.
  - reflexivity.
  - reflexivity.
  - reflexivity.
  - intros i Hi. do 8 (destruct i as [|i]; [reflexivity|]).
    simpl in Hi. lia.
Defined.

(** An earlier match of pattern 2 decides instead, also when it overlaps
    the date and names none itself. *)
Example iso_date_after_overlapping_match :
  extract_date_from_filename "1999-12-32025-03-11.csv" = None.
Proof. vm_compute. reflexivity. Qed.

(** ** File names without digits *)

Section SearchDigits.

Context {A : Type} (f : list ascii → option A).
Hypothesis Hf : ∀ s m, f s = Some m → existsb is_digit s = true.

(** A pattern that needs a digit where it is anchored finds nothing in a
    text without digits. *)
Lemma search_needs_digit (s : list ascii) (m : A) :
  Re.search f s = Some m → existsb is_digit s = true.
Proof.
  induction s as [|c s IH]; cbn [Re.search].
  - destruct (f []) eqn:E; [|done]. intros _. by apply (Hf [] a).
  - destruct (f (c :: s)) eqn:E.
    + intros _. by apply (Hf (c :: s) a).
    + intros H. simpl. rewrite (IH H). apply orb_true_r.
Qed.

End SearchDigits.

Lemma existsb_app_digit (a b : list ascii) :
  existsb is_digit (a ++ b) = existsb is_digit a || existsb is_digit b.
Proof. apply existsb_app. Qed.

Lemma forallb_existsb_digit (l : list ascii) :
  l ≠ [] → forallb is_digit l = true → existsb is_digit l = true.
Proof.
  destruct l as [|c l]; [done|]. simpl. intros _ H.
  apply andb_true_iff in H as [-> _]. done.
Qed.

Lemma pattern1_needs_digit s m :
  Re.pattern1 s = Some m → existsb is_digit s = true.
Proof.
  destruct m as [[g1 g2] g3]. intros H.
  apply pattern1_sound in H
    as (ws1 & ws2 & rest & -> & _ & _ & _ & _ & Hg2 & _ & Hd & _).
  rewrite !existsb_app_digit, (forallb_existsb_digit g2 Hg2 Hd).
  by rewrite !orb_true_r.
Qed.

Lemma pattern2_needs_digit s m :
  Re.pattern2 s = Some m → existsb is_digit s = true.
Proof.
  unfold Re.pattern2. do 10 (destruct s as [|? s]; [done|]).
  destruct (_ && _) eqn:E; [|done]. intros _.
  apply andb_true_iff in E as [E _]. apply andb_true_iff in E as [E _].
  cbn [forallb] in E. apply andb_true_iff in E as [E _].
  cbn [existsb]. by rewrite E.
Qed.

Lemma pattern3_needs_digit s m :
  Re.pattern3 s = Some m → existsb is_digit s = true.
Proof.
  destruct m as [[y mo] d]. intros H.
  apply pattern3_sound in H as (rest & -> & Hy & _ & _ & Hd).
  rewrite forallb_app in Hd. apply andb_true_iff in Hd as [Hd _].
  rewrite existsb_app_digit, (forallb_existsb_digit y); [done| |done].
  by destruct y.
Qed.

(** A file name without a digit has no date: none of the three rules can
    match it, and the result is the absent date, not an error. *)
Theorem no_digit_no_date (filename : string) :
  existsb is_digit (chars filename) = false →
  extract_date_from_filename filename = None.
Proof.
  intros H. unfold extract_date_from_filename.
  destruct (Re.search Re.pattern1 _) eqn:E1.
  { apply (search_needs_digit _ pattern1_needs_digit) in E1. congruence. }
  destruct (Re.search Re.pattern2 _) eqn:E2.
  { apply (search_needs_digit _ pattern2_needs_digit) in E2. congruence. }
  destruct (Re.search Re.pattern3 _) eqn:E3.
  { apply (search_needs_digit _ pattern3_needs_digit) in E3. congruence. }
  reflexivity.
Qed.

Lemma no_digit_no_date_witness :
  extract_date_from_filename "Europe March deciles.xlsx" = None.
Proof. apply no_digit_no_date. reflexivity. Defined.

(* ================================================================== *)
(** * Region classification: letter case and whole words                *)
(* ================================================================== *)

Lemma lower_char_idem (c : ascii) : lower_char (lower_char c) = lower_char c.
Proof. by_cases c. Qed.

Lemma lower_idem (s : string) : lower (lower s) = lower s.
Proof.
  unfold lower at 1. rewrite chars_lower, map_map. unfold lower. f_equal.
  apply map_ext. intros c. apply lower_char_idem.
Qed.

(** The region of a file name is the region of its lower-case form: two
    names that differ in letter case only get the same tag. *)
Theorem region_ignores_case (a b : string) :
  lower a = lower b →
  extract_region_from_filename a = extract_region_from_filename b
  ∧ extract_region_from_filename (lower a) = extract_region_from_filename a.
Proof.
  intros H. unfold extract_region_from_filename.
  by rewrite lower_idem, H.
Qed.

Lemma region_ignores_case_witness :
  extract_region_from_filename "EUROPE Jan 28 2025.XLSX"
  = extract_region_from_filename "europe jan 28 2025.xlsx".
Proof.
  apply (region_ignores_case "EUROPE Jan 28 2025.XLSX"
           "europe jan 28 2025.xlsx").
  reflexivity.
Defined.

(** A keyword that begins and ends with a word character is found exactly
    where it stands as a whole word: the text splits around a copy of it
    that is neither preceded nor followed by a letter, a digit or an
    underscore. *)
Theorem keyword_matches_whole_words (kw s : string) (first final : ascii)
    (Hfirst : head (chars kw) = Some first)
    (Hfinal : last (chars kw) = Some final)
    (Hwf : is_word first = true)
    (Hwl : is_word final = true) :
  Re.word_search kw s = true
  ↔ ∃ pre post,
      s = pre +:+ kw +:+ post
      ∧ Re.is_word_at (last (chars pre)) = false
      ∧ Re.is_word_at (head (chars post)) = false.
Proof.
  unfold Re.word_search. rewrite word_search_from_spec.
  assert (Hhead : ∀ post, head (chars kw ++ post) = Some first).
  { intros post. by destruct (chars kw). }
  assert (Hlast : ∀ pre, last (pre ++ chars kw) = Some final).
  { intros pre. destruct (chars kw) as [|c l] eqn:E; [done|].
    by rewrite last_after. }
  assert (Hb1 : ∀ o, Re.boundary o (Some first) = true
                     ↔ Re.is_word_at o = false).
  { intros o. unfold Re.boundary. simpl. rewrite Hwf.
    by destruct (Re.is_word_at o). }
  assert (Hb2 : ∀ o, Re.boundary (Some final) o = true
                     ↔ Re.is_word_at o = false).
  { intros o. unfold Re.boundary. simpl. rewrite Hwl.
    by destruct (Re.is_word_at o). }
  split.
  - intros (pre & post & E & H1 & H2). simpl in H1, H2.
    rewrite Hhead, Hb1 in H1. rewrite Hlast, Hb2 in H2.
    exists (of_chars pre), (of_chars post).
    rewrite !chars_of_chars. split; [|done].
    rewrite <- (of_chars_chars s), E, !of_chars_app.
    by rewrite of_chars_chars.
  - intros (pre & post & -> & H1 & H2).
    exists (chars pre), (chars post). rewrite !chars_app. simpl.
    rewrite Hhead, Hb1, Hlast, Hb2. done.
Qed.

Lemma keyword_matches_whole_words_witness :
  Re.word_search "us" "us_deciles_2025.xlsx" = true
  ↔ ∃ pre post,
      "us_deciles_2025.xlsx" = pre +:+ "us" +:+ post
      ∧ Re.is_word_at (last (chars pre)) = false
      ∧ Re.is_word_at (head (chars post)) = false.
Proof.
  apply (keyword_matches_whole_words "us" "us_deciles_2025.xlsx"
           "u"%char "s"%char); reflexivity.
Defined.

(** ** Keywords that end in the word "us" *)

(** A keyword that ends in " us" or "-us" carries the whole word "us". *)
Lemma keyword_tail_matches (k tail s : list ascii) (x t : ascii) :
  last k = Some x → is_word x = false →
  head tail = Some t → is_word t = true →
  Re.word_search_from (k ++ tail) None s = true →
  Re.word_search_from tail None s = true.
Proof.
  intros Hk Hx Ht Hwt. rewrite !word_search_from_spec.
  intros (pre & post & -> & _ & H2).
  exists (pre ++ k), post. split; [by rewrite <- !app_assoc|]. split.
  - simpl. destruct k as [|c k] using rev_ind; [done|].
    rewrite last_snoc in Hk. injection Hk as ->.
    rewrite app_assoc, last_snoc.
    destruct tail as [|t' tail]; [done|]. injection Ht as ->.
    unfold Re.boundary. simpl. by rewrite Hx, Hwt.
  - by rewrite <- !app_assoc in *.
Qed.

Lemma us_first_in_table (fl : string) :
  Re.word_search "us" fl = true → first_region REGION_MAPPINGS fl = Some "US".
Proof.
  intros H. unfold REGION_MAPPINGS. cbn [first_region].
  replace (existsb _ _) with true; [done|].
  symmetry. apply existsb_exists. exists "us". split; [|done].
  cbn. tauto.
Qed.

(** The keywords "world ex us", "ex-us" and "non-us" of the region
    "Global Ex US" never decide: wherever one of them matches, the keyword
    "us" of the region "US" matches too, and "US" comes first in the table.
    Such a file name is tagged "US" (or "APAC Ex Japan" through its compound
    phrase) unless it contains "global ex us" or "global ex-us". *)
Theorem ex_us_keywords_give_us (filename kw : string)
    (Hkw : kw ∈ ["us"; "world ex us"; "ex-us"; "non-us"])
    (Hmatch : Re.word_search kw (lower filename) = true)
    (Hno1 : str_in "global ex us" (lower filename) = false)
    (Hno2 : str_in "global ex-us" (lower filename) = false) :
  extract_region_from_filename filename
  = if str_in "apac ex jpy" (lower filename)
       || str_in "apac ex japan" (lower filename)
    then "APAC Ex Japan" else "US".
Proof.
  assert (Hus : Re.word_search "us" (lower filename) = true).
  { unfold Re.word_search in *.
    repeat (apply elem_of_cons in Hkw as [->|Hkw]).
    - done.
    - by apply (keyword_tail_matches (chars "world ex ") (chars "us") _
                  " "%char "u"%char).
    - by apply (keyword_tail_matches (chars "ex-") (chars "us") _
                  "-"%char "u"%char).
    - by apply (keyword_tail_matches (chars "non-") (chars "us") _
                  "-"%char "u"%char).
    - by apply elem_of_nil in Hkw. }
  unfold extract_region_from_filename.
  rewrite Hno1, Hno2, (us_first_in_table _ Hus).
  cbn [orb default].
  destruct (str_in "apac ex jpy" _ || str_in "apac ex japan" _); [done|].
  by destruct (_ || _).
Qed.

Lemma ex_us_keywords_give_us_witness :
  extract_region_from_filename "MSCI World ex-US Mar 11 2025.xlsx" = "US".
Proof.
  apply (ex_us_keywords_give_us "MSCI World ex-US Mar 11 2025.xlsx" "ex-us").
  - in_list.
  - reflexivity.
  - reflexivity.
  - reflexivity.
Defined.

(* ================================================================== *)
(** * Schema normaliser: every table                                    *)
(* ================================================================== *)

(** The name a header gets: the canonical name of its trimmed lower-case
    form when that is a known synonym, the header itself otherwise. *)
Definition canonical_name (header : string) : string :=
  default header (column_mappings !! strip (lower header)).

Lemma add_column_lookup (m : gmap string string) (c h : string) :
  add_column m c !! h
  = match (if decide (h = c) then column_mappings !! strip (lower h) else None)
    with
    | Some std => Some std
    | None => m !! h
    end.
Proof.
  unfold add_column. destruct (decide (h = c)) as [->|Hne].
  - destruct (column_mappings !! _); [|done]. by rewrite lookup_insert_eq.
  - destruct (column_mappings !! strip (lower c)); [|done].
    by rewrite lookup_insert_ne.
Qed.

Lemma foldl_add_column_lookup (headers : list string)
    (m : gmap string string) (h : string) :
  foldl add_column m headers !! h
  = match (if decide (h ∈ headers)
           then column_mappings !! strip (lower h) else None) with
    | Some std => Some std
    | None => m !! h
    end.
Proof.
  revert m. induction headers as [|c headers IH]; intros m.
  - cbn. by rewrite decide_False by apply not_elem_of_nil.
  - cbn [foldl]. rewrite IH, add_column_lookup.
    destruct (decide (h ∈ headers)) as [Hin|Hnin].
    + rewrite (decide_True (P := h ∈ c :: headers))
        by (by apply list_elem_of_further).
      destruct (column_mappings !! _); [done|]. by destruct (decide (h = c)).
    + destruct (decide (h = c)) as [->|Hne].
      * by rewrite (decide_True (P := c ∈ c :: headers))
          by apply list_elem_of_here.
      * rewrite (decide_False (P := h ∈ c :: headers)); [done|].
        by intros [?|?]%elem_of_cons.
Qed.

(** The dict [new_columns] holds, for each header of the table that has a
    synonym, its canonical name, and nothing else. *)
Lemma new_columns_lookup (headers : list string) (h : string) :
  new_columns_of headers !! h
  = if decide (h ∈ headers) then column_mappings !! strip (lower h) else None.
Proof.
  unfold new_columns_of. rewrite foldl_add_column_lookup, lookup_empty.
  by destruct (if decide _ then _ else _).
Qed.

Lemma standardize_data (df : DataFrame) :
  standardize_column_names df
  = mk_frame (index df)
      (map (fun p => (canonical_name p.1, p.2)) (data df)).
Proof.
  assert (Hren : rename (new_columns_of (columns df)) df
                 = mk_frame (index df)
                     (map (fun p => (canonical_name p.1, p.2)) (data df))).
  { unfold rename. f_equal. apply map_ext_in. intros p Hp. f_equal.
    rewrite new_columns_lookup. rewrite decide_True; [done|].
    unfold columns. apply list_elem_of_fmap. exists p. split; [done|].
    by apply list_elem_of_In. }
  unfold standardize_column_names. case_bool_decide as Hempty; [|done].
  rewrite <- Hren. symmetry. apply rename_identity.
  intros c std. rewrite Hempty, lookup_empty. done.
Qed.

(** Normalisation renames header by header and touches nothing else: the
    row labels, the cells, the number and the order of the columns stay,
    a header with a known synonym gets its standard name and every other
    header is kept as it is. *)
Theorem standardize_renames_headers (df : DataFrame) :
  index (standardize_column_names df) = index df
  ∧ columns (standardize_column_names df) = map canonical_name (columns df)
  ∧ map snd (data (standardize_column_names df)) = map snd (data df).
Proof.
  rewrite standardize_data. unfold columns. simpl.
  rewrite !map_map. done.
Qed.

Lemma column_values_settled :
  Forall (fun kv => canonical_name kv.2 = kv.2) COLUMN_ITEMS.
Proof.
  unfold COLUMN_ITEMS.
  repeat (apply Forall_cons; split; [vm_compute; reflexivity|]).
  apply Forall_nil_2.
Qed.

Lemma canonical_name_idem (h : string) :
  canonical_name (canonical_name h) = canonical_name h.
Proof.
  unfold canonical_name at 2 3.
  destruct (column_mappings !! strip (lower h)) as [std|] eqn:E; simpl.
  - apply elem_of_list_to_map_2 in E.
    pose proof column_values_settled as Hall.
    rewrite Forall_forall in Hall. apply (Hall _ E).
  - unfold canonical_name. by rewrite E.
Qed.

(** Normalisation is idempotent on every table: a second pass renames
    nothing. *)
Theorem standardize_idempotent (df : DataFrame) :
  standardize_column_names (standardize_column_names df)
  = standardize_column_names df.
Proof.
  rewrite !standardize_data. simpl. f_equal.
  rewrite map_map. apply map_ext. intros [h col]. simpl.
  by rewrite canonical_name_idem.
Qed.

(* ================================================================== *)
(** * Record enricher: metadata, supplied changes, text cells           *)
(* ================================================================== *)

(** The table once its headers are normalised and the two metadata
    columns are set: what [process_file_data] holds before it looks at the
    decile columns. *)
Definition stamped (df : DataFrame) (region : string)
    (file_date : option datetime) (now : datetime) : DataFrame :=
  setitem_scalar
    (setitem_scalar (standardize_column_names df) "Region" (Str region))
    "File Date" (Stamp (default now file_date)).


Lemma elem_of_setitem (df : DataFrame) (c h : string) (v col : list cell) :
  (h, col) ∈ data (setitem df c v) →
  (h = c ∧ col = v) ∨ (h ≠ c ∧ (h, col) ∈ data df).
Proof.
  unfold setitem. destruct (has_column df c) eqn:Hc; simpl.
  - intros H. apply list_elem_of_fmap in H as ([h' col'] & E & Hin).
    simpl in E. case_bool_decide as Hh.
    + injection E as -> ->. by left.
    + injection E as -> ->. right. done.
  - intros H. apply elem_of_app in H as [H|H].
    + right. split; [|done]. intros ->.
      apply has_column_false in Hc. apply Hc.
      unfold columns. apply list_elem_of_fmap. by exists (c, col).
    + apply list_elem_of_singleton in H. injection H as -> ->. by left.
Qed.

Lemma index_setitem (df : DataFrame) (c : string) (v : list cell) :
  index (setitem df c v) = index df.
Proof. unfold setitem. by destruct (has_column df c). Qed.

Lemma has_column_setitem_same (df : DataFrame) (c : string) (v : list cell) :
  has_column (setitem df c v) c = true.
Proof.
  apply has_column_true. rewrite columns_setitem.
  destruct (has_column df c) eqn:E.
  - by apply has_column_true.
  - apply elem_of_app. right. apply list_elem_of_here.
Qed.

Lemma index_standardize (df : DataFrame) :
  index (standardize_column_names df) = index df.
Proof. by rewrite standardize_data. Qed.

Lemma process_file_data_run (df : DataFrame) (region : string)
    (file_date : option datetime) (now : datetime) :
  empty df = false →
  process_file_data (Some df) region file_date now
  = let df2 := stamped df region file_date now in
    if negb (has_column df2 "Decile Change")
       && has_column df2 "Current Decile"
       && has_column df2 "Previous Decile"
    then
      current ← getitem df2 "Current Decile";
      previous ← getitem df2 "Previous Decile";
      change ← series_sub current previous;
      Ok (Some (setitem df2 "Decile Change" change))
    else Ok (Some df2).
Proof. intros H. unfold process_file_data. by rewrite H. Qed.

Lemma process_file_data_nothing (df : DataFrame) (region : string)
    (file_date : option datetime) (now : datetime) :
  empty df = true →
  process_file_data (Some df) region file_date now = Ok None.
Proof. intros H. unfold process_file_data. by rewrite H. Qed.

(** Whatever table comes out of the enricher has the row labels of the
    input, and its Region and File Date columns hold, in every row, the
    region given and the date given, or the current time when no date was
    given: values the file had under those headers are overwritten. *)
Theorem enrich_stamps_every_row (df out : DataFrame) (region : string)
    (file_date : option datetime) (now : datetime) :
  process_file_data (Some df) region file_date now = Ok (Some out) →
  empty df = false
  ∧ index out = index df
  ∧ has_column out "Region" = true
  ∧ has_column out "File Date" = true
  ∧ (∀ col, ("Region", col) ∈ data out →
            col = replicate (len df) (Str region))
  ∧ (∀ col, ("File Date", col) ∈ data out →
            col = replicate (len df) (Stamp (default now file_date))).
Proof.
  intros H. destruct (empty df) eqn:Hrows.
  { by rewrite process_file_data_nothing in H. }
  split; [done|].
  rewrite process_file_data_run in H by done. cbv zeta in H.
  set (df2 := stamped df region file_date now) in *.
  assert (H2 : index df2 = index df
               ∧ has_column df2 "Region" = true
               ∧ has_column df2 "File Date" = true
               ∧ (∀ col, ("Region", col) ∈ data df2 →
                         col = replicate (len df) (Str region))
               ∧ (∀ col, ("File Date", col) ∈ data df2 →
                         col = replicate (len df)
                                 (Stamp (default now file_date)))).
  { unfold df2, stamped, setitem_scalar.
    rewrite !index_setitem, index_standardize, !len_setitem, len_standardize.
    split; [done|]. split.
    { rewrite has_column_setitem_ne by done. apply has_column_setitem_same. }
    split; [apply has_column_setitem_same|]. split.
    - intros col Hin. apply elem_of_setitem in Hin as [[? _]|[_ Hin]]; [done|].
      by apply elem_of_setitem in Hin as [[_ ->]|[? _]].
    - intros col Hin. by apply elem_of_setitem in Hin as [[_ ->]|[? _]]. }
  destruct H2 as (Hi & Hr & Hf & Hrc & Hfc).
  destruct (_ && _) in H.
  - destruct (getitem df2 "Current Decile") as [cur|]; [|done].
    destruct (getitem df2 "Previous Decile") as [prev|]; [|done].
    cbn in H. destruct (series_sub cur prev) as [change|]; [|done].
    cbn in H. injection H as <-.
    rewrite index_setitem, !has_column_setitem_ne by done.
    repeat split; try done.
    + intros col Hin.
      apply elem_of_setitem in Hin as [[? _]|[_ Hin]]; [done|auto].
    + intros col Hin.
      apply elem_of_setitem in Hin as [[? _]|[_ Hin]]; [done|auto].
  - injection H as <-. done.
Qed.

(** A file with a header in lower case and a Region column of its own,
    and what the enricher makes of it for region "US" on 8 January 2026. *)
Definition enrich_example : DataFrame :=
  mk_frame [0%nat; 1%nat]
    [("Symbol", [Str "F"; Str "TM"]); ("region", [Str "x"; Str "y"]);
     ("Region", [Str "Asia"; Str "Asia"])].

Definition enrich_example_out : DataFrame :=
  mk_frame [0%nat; 1%nat]
    [("Ticker", [Str "F"; Str "TM"]); ("region", [Str "x"; Str "y"]);
     ("Region", [Str "US"; Str "US"]);
     ("File Date", [Stamp (mk_datetime 2026 1 8 0);
                    Stamp (mk_datetime 2026 1 8 0)])].

Lemma enrich_stamps_every_row_witness :
  empty enrich_example = false
  ∧ index enrich_example_out = index enrich_example
  ∧ has_column enrich_example_out "Region" = true
  ∧ has_column enrich_example_out "File Date" = true
  ∧ (∀ col, ("Region", col) ∈ data enrich_example_out →
            col = replicate (len enrich_example) (Str "US"))
  ∧ (∀ col, ("File Date", col) ∈ data enrich_example_out →
            col = replicate (len enrich_example)
                    (Stamp (default (mk_datetime 2026 1 8 0) None))).
Proof.
  apply (enrich_stamps_every_row enrich_example enrich_example_out
           "US" None (mk_datetime 2026 1 8 0)).
  vm_compute. reflexivity.
Defined.

Lemma stamped_has_column (df : DataFrame) (region : string)
    (file_date : option datetime) (now : datetime) (c : string) :
  c ≠ "Region" → c ≠ "File Date" →
  has_column (stamped df region file_date now) c
  = has_column (standardize_column_names df) c.
Proof.
  intros H1 H2. unfold stamped, setitem_scalar.
  by rewrite !has_column_setitem_ne.
Qed.

Lemma stamped_getitem (df : DataFrame) (region : string)
    (file_date : option datetime) (now : datetime) (c : string) :
  c ≠ "Region" → c ≠ "File Date" →
  getitem (stamped df region file_date now) c
  = getitem (standardize_column_names df) c.
Proof.
  intros H1 H2. unfold stamped, setitem_scalar.
  by rewrite !getitem_setitem_ne.
Qed.

(** A change column the file supplies, under any of its synonyms, is kept
    as it is: the enricher computes nothing, reads no decile column and
    cannot raise, whatever the decile columns hold. *)
Theorem supplied_change_is_kept (df : DataFrame) (region : string)
    (file_date : option datetime) (now : datetime)
    (Hrows : empty df = false)
    (Hchange : has_column (standardize_column_names df) "Decile Change" = true) :
  process_file_data (Some df) region file_date now
  = Ok (Some (stamped df region file_date now))
  ∧ getitem (stamped df region file_date now) "Decile Change"
    = getitem (standardize_column_names df) "Decile Change".
Proof.
  split; [|by apply stamped_getitem].
  rewrite process_file_data_run by done. cbv zeta.
  by rewrite stamped_has_column, Hchange.
Qed.

Lemma supplied_change_is_kept_witness :
  process_file_data
    (Some (mk_frame [0%nat]
             [("decile", [Num 2]); ("prev decile", [Str "n/a"]);
              ("Change", [Num 7])]))
    "US" None (mk_datetime 2026 1 8 0)
  = Ok (Some (stamped
                (mk_frame [0%nat]
                   [("decile", [Num 2]); ("prev decile", [Str "n/a"]);
                    ("Change", [Num 7])])
                "US" None (mk_datetime 2026 1 8 0))).
Proof.
  apply (supplied_change_is_kept
           (mk_frame [0%nat]
              [("decile", [Num 2]); ("prev decile", [Str "n/a"]);
               ("Change", [Num 7])])
           "US" None (mk_datetime 2026 1 8 0)).
  - reflexivity.
  - vm_compute. reflexivity.
Defined.







(** A text whose partner is missing raises nothing: the row gets a missing
    change. *)
Example text_beside_missing :
  process_file_data
    (Some (mk_frame [0%nat; 1%nat]
             [("Decile", [Num 2; NaN]);
              ("Prev Decile", [Num 5; Str "n/a"])]))
    "US" None (mk_datetime 2026 1 8 0)
  = Ok (Some (mk_frame [0%nat; 1%nat]
                [("Current Decile", [Num 2; NaN]);
                 ("Previous Decile", [Num 5; Str "n/a"]);
                 ("Region", [Str "US"; Str "US"]);
                 ("File Date", [Stamp (mk_datetime 2026 1 8 0);
                                Stamp (mk_datetime 2026 1 8 0)]);
                 ("Decile Change", [Num (-3); NaN])])).
Proof. vm_compute. reflexivity. Qed.

(** Two [int64] columns are subtracted modulo 2^64. *)
Example int64_columns_wrap :
  series_sub [Num 9223372036854775807; Num 2] [Num (-1); Num 5]
  = Ok [Num (-9223372036854775808); Num (-3)].
Proof. vm_compute. reflexivity. Qed.

(* ================================================================== *)
(** * Filter engine: what a filter keeps of a table                 *)
(* ================================================================== *)

Section RowSelection.

Context {A : Type}.
Implicit Types (m mask : list bool) (l : list A).

Lemma keep_keep m1 m2 l :
  keep (keep m1 m2) (keep m1 l) = keep (zip_with andb m1 m2) l.
Proof.
  revert m2 l. induction m1 as [|b m1 IH]; intros m2 l; [done|].
  destruct m2 as [|c m2], l as [|x l]; simpl.
  - by destruct b.
  - by destruct b.
  - by rewrite !keep_nil.
  - destruct b, c; simpl; by rewrite IH.
Qed.

Lemma keep_all l n : (length l ≤ n)%nat → keep (replicate n true) l = l.
Proof.
  revert n. induction l as [|x l IH]; intros n Hn.
  - apply keep_nil.
  - destruct n as [|n]; simpl in *; [lia|]. rewrite IH; [done|lia].
Qed.

Lemma keep_sublist m l : sublist (keep m l) l.
Proof.
  revert l. induction m as [|b m IH]; intros l; simpl.
  - apply sublist_nil_l.
  - destruct l as [|x l]; [done|].
    destruct b; [by apply sublist_skip | by apply sublist_cons].
Qed.

Lemma keep_nil_inv m l :
  length m = length l → keep m l = [] → m = replicate (length l) false.
Proof.
  revert l. induction m as [|b m IH]; intros [|x l] Hlen H; simpl in *;
    try done.
  destruct b; [done|]. f_equal. apply IH; [lia|done].
Qed.

End RowSelection.

Lemma length_keep {A B} (m : list bool) (l1 : list A) (l2 : list B) :
  length l1 = length l2 → length (keep m l1) = length (keep m l2).
Proof.
  revert l1 l2. induction m as [|b m IH]; intros [|x l1] [|y l2] H;
    simpl in *; try done.
  destruct b; simpl; rewrite (IH l1 l2); auto.
Qed.

Lemma keep_zip_with {A B C} (f : A → B → C) (m : list bool)
    (l1 : list A) (l2 : list B) :
  keep m (zip_with f l1 l2) = zip_with f (keep m l1) (keep m l2).
Proof.
  revert l1 l2. induction m as [|b m IH]; intros [|x l1] [|y l2];
    simpl; try done.
  - destruct b; simpl; rewrite ?keep_nil; try done.
    by destruct (keep m l1).
  - destruct b; simpl; by rewrite IH.
Qed.

Lemma keep_map {A B} (f : A → B) (m : list bool) (l : list A) :
  keep m (map f l) = map f (keep m l).
Proof.
  revert l. induction m as [|b m IH]; intros [|x l]; simpl; try done.
  destruct b; simpl; by rewrite IH.
Qed.

Lemma zip_with_andb_none (n : nat) (m : list bool) :
  length m = n → zip_with andb (replicate n false) m = replicate n false.
Proof.
  revert m. induction n as [|n IH]; intros [|b m] H; simpl in *; try done.
  f_equal. apply IH. lia.
Qed.

Lemma zip_with_andb_all (n : nat) (m : list bool) :
  length m = n → zip_with andb m (replicate n true) = m.
Proof.
  revert m. induction n as [|n IH]; intros [|b m] H; simpl in *; try done.
  rewrite andb_true_r. f_equal. apply IH. lia.
Qed.

Lemma zip_with_andb_all_l (n : nat) (m : list bool) :
  length m = n → zip_with andb (replicate n true) m = m.
Proof.
  revert m. induction n as [|n IH]; intros [|b m] H; simpl in *; try done.
  f_equal. apply IH. lia.
Qed.

(** The positions of a table marked by [sub] among those that [m] kept. *)
Fixpoint expand (m sub : list bool) : list bool :=
  match m with
  | [] => []
  | false :: m' => false :: expand m' sub
  | true :: m' =>
      match sub with
      | [] => []
      | b :: sub' => b :: expand m' sub'
      end
  end.

Lemma keep_expand {A} (m sub : list bool) (l : list A) :
  keep sub (keep m l) = keep (expand m sub) l.
Proof.
  revert sub l. induction m as [|b m IH]; intros sub l; simpl.
  - apply keep_nil.
  - destruct l as [|x l]; [by rewrite !keep_nil|].
    destruct b; [|by rewrite IH].
    destruct sub as [|c sub]; [done|]. simpl. by rewrite IH.
Qed.

Lemma bind_ok {A B} (r : result A) (k : A → result B) (y : B) :
  r ≫= k = Ok y → ∃ x, r = Ok x ∧ k x = Ok y.
Proof. destruct r as [x|e]; [eauto|done]. Qed.

Lemma mapM_cons {A B} (f : A → result B) (x : A) (l : list A) :
  mapM f (x :: l) = (y ← f x; r ← mapM f l; Ok (y :: r)).
Proof. reflexivity. Qed.

Lemma mapM_length {A B} (f : A → result B) (l : list A) (r : list B) :
  mapM f l = Ok r → length r = length l.
Proof.
  revert r. induction l as [|x l IH]; intros r H.
  - by injection H as <-.
  - rewrite mapM_cons in H.
    apply bind_ok in H as (y & _ & H). apply bind_ok in H as (r' & Hr & H).
    injection H as <-. simpl. f_equal. auto.
Qed.

Lemma mapM_keep {A B} (f : A → result B) (m : list bool) (l : list A)
    (r : list B) :
  mapM f l = Ok r → mapM f (keep m l) = Ok (keep m r).
Proof.
  revert l r. induction m as [|b m IH]; intros l r H; [done|].
  destruct l as [|x l].
  - injection H as <-. done.
  - rewrite mapM_cons in H.
    apply bind_ok in H as (y & Hy & H). apply bind_ok in H as (r' & Hr & H).
    injection H as <-. simpl. destruct b; [|by apply IH].
    rewrite mapM_cons, Hy. cbn. by rewrite (IH l r' Hr).
Qed.

Section SubTables.

Implicit Types (df : DataFrame) (c : string) (m mask : list bool).

Lemma columns_select_rows df m : columns (select_rows df m) = columns df.
Proof.
  unfold select_rows, columns. simpl. rewrite map_map. by apply map_ext.
Qed.

Lemma has_column_select_rows df m c :
  has_column (select_rows df m) c = has_column df c.
Proof. unfold has_column. by rewrite columns_select_rows. Qed.

Lemma filter_header_map (f : list cell → list cell) c
    (d : list (string * list cell)) :
  filter (fun p => p.1 = c) (map (fun p => (p.1, f p.2)) d)
  = map (fun p => (p.1, f p.2)) (filter (fun p => p.1 = c) d).
Proof.
  induction d as [|p d IH]; [done|].
  simpl. rewrite !filter_cons. simpl.
  destruct (decide (p.1 = c)); simpl; by rewrite IH.
Qed.

Lemma getitem_select_rows df m c v :
  getitem df c = Ok v → getitem (select_rows df m) c = Ok (keep m v).
Proof.
  unfold getitem, select_rows. simpl. rewrite filter_header_map.
  destruct (filter _ (data df)) as [|[h col] [|? ?]]; try done.
  by intros [= ->].
Qed.

Lemma select_rows_select_rows df m1 m2 :
  select_rows (select_rows df m1) (keep m1 m2)
  = select_rows df (zip_with andb m1 m2).
Proof.
  unfold select_rows. simpl. rewrite keep_keep. f_equal.
  rewrite map_map. apply map_ext. intros p. simpl. by rewrite keep_keep.
Qed.

Lemma select_rows_expand df m sub :
  select_rows (select_rows df m) sub = select_rows df (expand m sub).
Proof.
  unfold select_rows. simpl. rewrite keep_expand. f_equal.
  rewrite map_map. apply map_ext. intros p. simpl. by rewrite keep_expand.
Qed.

Lemma select_rows_all df :
  wf df → select_rows df (replicate (len df) true) = df.
Proof.
  destruct df as [idx d]. unfold wf, select_rows, len. simpl. intros Hwf.
  rewrite keep_all by done. f_equal.
  induction Hwf as [|[h col] d Hp _ IH]; [done|].
  simpl in *. rewrite keep_all by lia. by rewrite IH.
Qed.

Lemma wf_select_rows df m : wf df → wf (select_rows df m).
Proof.
  unfold wf, select_rows, len. simpl. intros Hwf. apply Forall_map.
  eapply Forall_impl; [exact Hwf|]. intros p Hp. simpl.
  by apply length_keep.
Qed.

Lemma setitem_same df c v : getitem df c = Ok v → setitem df c v = df.
Proof.
  intros H. unfold setitem. rewrite (getitem_ok_has_column _ _ _ H).
  destruct df as [idx d]. unfold getitem in H. simpl in *. f_equal.
  assert (Hall : ∀ p, p ∈ filter (fun p => p.1 = c) d → p = (c, v)).
  { destruct (filter _ d) as [|[h col] [|? ?]] eqn:E; try done.
    injection H as ->. intros p Hp. apply list_elem_of_singleton in Hp as ->.
    assert (Hin : (h, v) ∈ filter (fun p => p.1 = c) d)
      by (rewrite E; apply list_elem_of_here).
    apply list_elem_of_filter in Hin as [Hh _]. simpl in Hh. by subst. }
  clear H. induction d as [|p d IH]; [done|].
  simpl. rewrite filter_cons in Hall.
  case_bool_decide as Hp.
  - rewrite decide_True in Hall by done.
    rewrite <- (Hall p) at 1 by apply list_elem_of_here. f_equal.
    apply IH. intros q Hq. apply Hall. by apply list_elem_of_further.
  - rewrite decide_False in Hall by done. f_equal. by apply IH.
Qed.

Lemma to_datetime_same (col : list cell) (stamps : list (option datetime)) :
  mapM to_datetime col = Ok stamps → map of_timestamp stamps = col.
Proof.
  revert stamps. induction col as [|x col IH]; intros stamps H.
  - by injection H as <-.
  - rewrite mapM_cons in H.
    apply bind_ok in H as (y & Hy & H). apply bind_ok in H as (r & Hr & H).
    injection H as <-. simpl. rewrite (IH r Hr). f_equal.
    destruct x as [| | |d]; try done; [by injection Hy as <-|].
    simpl in Hy. destruct (in_ns_bounds d); [|done]. by injection Hy as <-.
Qed.

End SubTables.

Lemma getitem_bool_selects (df out : DataFrame) (key : BoolSeries) :
  getitem_bool df key = Ok out → ∃ mask, out = select_rows df mask.
Proof.
  unfold getitem_bool. case_bool_decide as Hkey.
  - intros [= <-]. eauto.
  - intros H. apply bind_ok in H as (mask & _ & [= <-]). eauto.
Qed.

Lemma apply_filter_selects (f : filter_call) (df out : DataFrame) :
  wf df → apply_filter f df = Ok out → ∃ mask, out = select_rows df mask.
Proof.
  intros Hwf H.
  assert (Hsame : ∃ mask, df = select_rows df mask).
  { exists (replicate (len df) true). by rewrite select_rows_all. }
  destruct f as [region|sector|start_date end_date|criteria|search_term];
    simpl in H.
  - unfold filter_by_region in H.
    destruct (empty df || bool_decide (region = "All Regions")
              || negb (has_column df "Region")); [by injection H as <-|].
    apply bind_ok in H as (col & _ & H).
    apply bind_ok in H as (mask & _ & [= <-]). eauto.
  - unfold filter_by_sector in H.
    destruct (empty df || bool_decide (sector = "All Sectors")
              || negb (has_column df "Sector")); [by injection H as <-|].
    apply bind_ok in H as (col & _ & H).
    apply bind_ok in H as (mask & _ & [= <-]). eauto.
  - unfold filter_by_date_range in H.
    destruct (empty df || negb (has_column df "File Date"));
      [by injection H as <-|].
    apply bind_ok in H as (col & Hcol & H).
    apply bind_ok in H as (stamps & Hstamps & H).
    apply bind_ok in H as (start & _ & H).
    apply bind_ok in H as (stop & _ & [= <-]).
    rewrite (to_datetime_same _ _ Hstamps), (setitem_same _ _ _ Hcol). eauto.
  - unfold filter_by_decile_criteria in H.
    destruct (empty df); [by injection H as <-|].
    repeat (case_bool_decide as Hc; [try by injection H as <-|]; clear Hc);
      try by injection H as <-.
    + apply bind_ok in H as (cur & _ & H). apply bind_ok in H as (a & _ & H).
      apply bind_ok in H as (prev & _ & H).
      apply bind_ok in H as (b & _ & [= <-]). eauto.
    + apply bind_ok in H as (cur & _ & H). apply bind_ok in H as (a & _ & H).
      apply bind_ok in H as (prev & _ & H).
      apply bind_ok in H as (b & _ & [= <-]). eauto.
    + apply bind_ok in H as (change & _ & H).
      apply bind_ok in H as (a & _ & [= <-]). eauto.
    + apply bind_ok in H as (change & _ & H).
      apply bind_ok in H as (a & _ & [= <-]). eauto.
  - unfold filter_by_search in H.
    destruct (empty df || bool_decide (search_term = EmptyString));
      [by injection H as <-|].
    apply bind_ok in H as (mask1 & _ & H).
    apply bind_ok in H as (mask2 & _ & H).
    by apply getitem_bool_selects in H.
Qed.

(** Whatever filters are applied in whatever order, the table they return
    consists of rows of the table they were given: no cell is changed, no
    row or column is added, and the rows and the columns keep their
    order. *)
Theorem filters_only_drop_rows (fs : list filter_call) (df out : DataFrame) :
  wf df →
  apply_filters fs df = Ok out →
  (∃ mask, out = select_rows df mask)
  ∧ columns out = columns df
  ∧ sublist (index out) (index df)
  ∧ wf out.
Proof.
  intros Hwf H.
  assert (Hmask : ∃ mask, out = select_rows df mask).
  { revert df Hwf H. induction fs as [|f fs IH]; intros df Hwf H.
    - injection H as <-. exists (replicate (len df) true).
      by rewrite select_rows_all.
    - simpl in H. apply bind_ok in H as (mid & Hf & H).
      destruct (apply_filter_selects f df mid Hwf Hf) as (m & ->).
      destruct (IH _ (wf_select_rows df m Hwf) H) as (sub & ->).
      exists (expand m sub). apply select_rows_expand. }
  split; [done|]. destruct Hmask as (mask & ->).
  split; [apply columns_select_rows|].
  split; [apply keep_sublist | by apply wf_select_rows].
Qed.

Lemma filters_only_drop_rows_witness :
  (∃ mask,
     mk_frame [1%nat]
       [ ("Ticker", [Str "TM"]); ("Company Name", [Str "Toyota Motor"]);
         ("Sector", [Str "Industrials"]); ("Current Decile", [Num 7]);
         ("Previous Decile", [Num 2]); ("Decile Change", [Num 5]);
         ("Region", [Str "Japan"]);
         ("File Date", [Stamp (mk_datetime 2026 1 8 0)]) ]
     = select_rows dataset_two_regions mask).
Proof.
  apply (filters_only_drop_rows
           [ByRegion "Japan"; ByDecile "Moving +5 Deciles"; BySearch "toyota"]
           dataset_two_regions).
  - unfold wf, len. simpl. repeat (apply Forall_cons; split; [reflexivity|]).
    apply Forall_nil_2.
  - vm_compute. reflexivity.
Defined.

(* ================================================================== *)
(** * Filter engine: the order of the column filters                *)
(* ================================================================== *)

(** The filters that test one row at a time: all but the search, whose
    mask carries row labels of its own. *)
Definition column_filter (f : filter_call) : Prop :=
  match f with
  | BySearch _ => False
  | _ => True
  end.

(** [selects f df mf]: on every selection of rows of [df], the filter [f]
    keeps the rows that [mf] marks. *)
Definition selects (f : filter_call) (df : DataFrame) (mf : list bool)
  : Prop :=
  length mf = len df
  ∧ ∀ m, length m = len df →
      apply_filter f (select_rows df m)
      = Ok (select_rows df (zip_with andb m mf)).

Lemma empty_select_rows (df : DataFrame) (m : list bool) :
  empty df = true → empty (select_rows df m) = true.
Proof.
  unfold empty, select_rows. simpl. intros H.
  apply orb_true_iff in H as [H|H].
  - destruct (index df); [|done]. by rewrite keep_nil.
  - destruct (data df); [|done]. apply orb_true_r.
Qed.

Lemma empty_selection (df : DataFrame) (m mf : list bool) :
  empty df = false → length m = len df → length mf = len df →
  empty (select_rows df m) = true → zip_with andb m mf = m.
Proof.
  unfold empty, select_rows, len. simpl. intros Hdf Hm Hmf H.
  apply orb_false_iff in Hdf as [_ Hdata].
  destruct (data df) as [|p d]; [done|]. simpl in H.
  rewrite orb_false_r in H.
  destruct (keep m (index df)) eqn:E; [|done].
  apply keep_nil_inv in E; [|done]. rewrite E.
  apply zip_with_andb_none. lia.
Qed.

Lemma passes_selects (f : filter_call) (df : DataFrame) :
  (∀ m, apply_filter f (select_rows df m) = Ok (select_rows df m)) →
  selects f df (replicate (len df) true).
Proof.
  intros H. split; [apply length_replicate|].
  intros m Hm. by rewrite H, zip_with_andb_all.
Qed.

Lemma empty_selects (f : filter_call) (df : DataFrame) :
  empty df = true → selects f df (replicate (len df) true).
Proof.
  intros He. apply passes_selects. intros m.
  pose proof (filters_on_empty _ (empty_select_rows df m He))
    as (? & ? & ? & ? & ?).
  destruct f; simpl; auto.
Qed.

Lemma region_selects (df out : DataFrame) (region : string) :
  wf df → filter_by_region df region = Ok out →
  ∃ mf, selects (ByRegion region) df mf.
Proof.
  intros Hwf H.
  destruct (empty df) eqn:He; [eexists; by apply empty_selects|].
  unfold filter_by_region in H. rewrite He in H. simpl in H.
  destruct (bool_decide (region = "All Regions")) eqn:Hall.
  { eexists. apply passes_selects. intros m. simpl. unfold filter_by_region.
    by rewrite Hall, orb_true_r. }
  destruct (has_column df "Region") eqn:Hhas; simpl in H.
  2:{ eexists. apply passes_selects. intros m. simpl. unfold filter_by_region.
      by rewrite has_column_select_rows, Hhas, orb_true_r. }
  apply bind_ok in H as (col & Hcol & H).
  apply bind_ok in H as (mf & Hmf & _).
  assert (Hlen : length mf = len df).
  { rewrite (mapM_length _ _ _ Hmf). by apply getitem_length with "Region". }
  exists mf. split; [done|]. intros m Hm. simpl. unfold filter_by_region.
  destruct (empty (select_rows df m)) eqn:Hsub; simpl.
  - by rewrite (empty_selection df m mf).
  - rewrite Hall, has_column_select_rows, Hhas. simpl.
    rewrite (getitem_select_rows _ _ _ _ Hcol). cbn.
    rewrite (mapM_keep _ _ _ _ Hmf). cbn.
    by rewrite select_rows_select_rows.
Qed.

Lemma sector_selects (df out : DataFrame) (sector : string) :
  wf df → filter_by_sector df sector = Ok out →
  ∃ mf, selects (BySector sector) df mf.
Proof.
  intros Hwf H.
  destruct (empty df) eqn:He; [eexists; by apply empty_selects|].
  unfold filter_by_sector in H. rewrite He in H. simpl in H.
  destruct (bool_decide (sector = "All Sectors")) eqn:Hall.
  { eexists. apply passes_selects. intros m. simpl. unfold filter_by_sector.
    by rewrite Hall, orb_true_r. }
  destruct (has_column df "Sector") eqn:Hhas; simpl in H.
  2:{ eexists. apply passes_selects. intros m. simpl. unfold filter_by_sector.
      by rewrite has_column_select_rows, Hhas, orb_true_r. }
  apply bind_ok in H as (col & Hcol & H).
  apply bind_ok in H as (mf & Hmf & _).
  assert (Hlen : length mf = len df).
  { rewrite (mapM_length _ _ _ Hmf). by apply getitem_length with "Sector". }
  exists mf. split; [done|]. intros m Hm. simpl. unfold filter_by_sector.
  destruct (empty (select_rows df m)) eqn:Hsub; simpl.
  - by rewrite (empty_selection df m mf).
  - rewrite Hall, has_column_select_rows, Hhas. simpl.
    rewrite (getitem_select_rows _ _ _ _ Hcol). cbn.
    rewrite (mapM_keep _ _ _ _ Hmf). cbn.
    by rewrite select_rows_select_rows.
Qed.

Lemma date_range_selects (df out : DataFrame) (start_date end_date : datetime) :
  wf df → filter_by_date_range df start_date end_date = Ok out →
  ∃ mf, selects (ByDateRange start_date end_date) df mf.
Proof.
  intros Hwf H.
  destruct (empty df) eqn:He; [eexists; by apply empty_selects|].
  unfold filter_by_date_range in H. rewrite He in H. simpl in H.
  destruct (has_column df "File Date") eqn:Hhas; simpl in H.
  2:{ eexists. apply passes_selects. intros m. simpl.
      unfold filter_by_date_range.
      by rewrite has_column_select_rows, Hhas, orb_true_r. }
  apply bind_ok in H as (col & Hcol & H).
  apply bind_ok in H as (stamps & Hstamps & H).
  apply bind_ok in H as (start & Hstart & H).
  apply bind_ok in H as (stop & Hstop & _).
  set (in_range := fun t : option datetime =>
         match t with
         | Some d => datetime_leb start d && datetime_leb d stop
         | None => false
         end).
  assert (Hlen : length (map in_range stamps) = len df).
  { rewrite length_map, (mapM_length _ _ _ Hstamps).
    by apply getitem_length with "File Date". }
  exists (map in_range stamps). split; [done|]. intros m Hm. simpl.
  unfold filter_by_date_range.
  destruct (empty (select_rows df m)) eqn:Hsub; simpl.
  - by rewrite (empty_selection df m (map in_range stamps)).
  - rewrite has_column_select_rows, Hhas. simpl.
    pose proof (getitem_select_rows _ m _ _ Hcol) as Hcol'.
    pose proof (mapM_keep _ m _ _ Hstamps) as Hstamps'.
    rewrite Hcol'. cbn. rewrite Hstamps'. cbn.
    rewrite Hstart. cbn. rewrite Hstop. cbn.
    rewrite (to_datetime_same _ _ Hstamps'), (setitem_same _ _ _ Hcol').
    fold in_range. rewrite <- keep_map.
    by rewrite select_rows_select_rows.
Qed.

Lemma decile_selects (df out : DataFrame) (criteria : string) :
  wf df → filter_by_decile_criteria df criteria = Ok out →
  ∃ mf, selects (ByDecile criteria) df mf.
Proof.
  intros Hwf H.
  destruct (empty df) eqn:He; [eexists; by apply empty_selects|].
  unfold filter_by_decile_criteria in H. rewrite He in H.
  destruct (bool_decide (criteria = "All Decile Movements")) eqn:H0.
  { eexists. apply passes_selects. intros m. simpl.
    unfold filter_by_decile_criteria. rewrite H0.
    by destruct (empty (select_rows df m)). }
  destruct (bool_decide (criteria = "Entering Top 2 Deciles")) eqn:H1.
  { apply bind_ok in H as (cur & Hcur & H).
    apply bind_ok in H as (a & Ha & H).
    apply bind_ok in H as (prev & Hprev & H).
    apply bind_ok in H as (b & Hb & _).
    assert (Hlen : length (zip_with andb a b) = len df).
    { rewrite length_zip_with, (mapM_length _ _ _ Ha), (mapM_length _ _ _ Hb),
        (getitem_length _ _ _ Hwf Hcur), (getitem_length _ _ _ Hwf Hprev).
      lia. }
    exists (zip_with andb a b). split; [done|]. intros m Hm. simpl.
    unfold filter_by_decile_criteria.
    destruct (empty (select_rows df m)) eqn:Hsub.
    - by rewrite (empty_selection df m (zip_with andb a b)).
    - rewrite H0, H1.
      rewrite (getitem_select_rows _ _ _ _ Hcur). cbn.
      rewrite (mapM_keep _ _ _ _ Ha). cbn.
      rewrite (getitem_select_rows _ _ _ _ Hprev). cbn.
      rewrite (mapM_keep _ _ _ _ Hb). cbn.
      by rewrite <- keep_zip_with, select_rows_select_rows. }
  destruct (bool_decide (criteria = "Entering Bottom 2 Deciles")) eqn:H2.
  { apply bind_ok in H as (cur & Hcur & H).
    apply bind_ok in H as (a & Ha & H).
    apply bind_ok in H as (prev & Hprev & H).
    apply bind_ok in H as (b & Hb & _).
    assert (Hlen : length (zip_with andb a b) = len df).
    { rewrite length_zip_with, (mapM_length _ _ _ Ha), (mapM_length _ _ _ Hb),
        (getitem_length _ _ _ Hwf Hcur), (getitem_length _ _ _ Hwf Hprev).
      lia. }
    exists (zip_with andb a b). split; [done|]. intros m Hm. simpl.
    unfold filter_by_decile_criteria.
    destruct (empty (select_rows df m)) eqn:Hsub.
    - by rewrite (empty_selection df m (zip_with andb a b)).
    - rewrite H0, H1, H2.
      rewrite (getitem_select_rows _ _ _ _ Hcur). cbn.
      rewrite (mapM_keep _ _ _ _ Ha). cbn.
      rewrite (getitem_select_rows _ _ _ _ Hprev). cbn.
      rewrite (mapM_keep _ _ _ _ Hb). cbn.
      by rewrite <- keep_zip_with, select_rows_select_rows. }
  destruct (bool_decide (criteria = "Moving +3 Deciles")) eqn:H3.
  { apply bind_ok in H as (change & Hchange & H).
    apply bind_ok in H as (a & Ha & _).
    assert (Hlen : length a = len df).
    { by rewrite (mapM_length _ _ _ Ha), (getitem_length _ _ _ Hwf Hchange). }
    exists a. split; [done|]. intros m Hm. simpl.
    unfold filter_by_decile_criteria.
    destruct (empty (select_rows df m)) eqn:Hsub.
    - by rewrite (empty_selection df m a).
    - rewrite H0, H1, H2, H3.
      rewrite (getitem_select_rows _ _ _ _ Hchange). cbn.
      rewrite (mapM_keep _ _ _ _ Ha). cbn.
      by rewrite select_rows_select_rows. }
  destruct (bool_decide (criteria = "Moving +5 Deciles")) eqn:H4.
  { apply bind_ok in H as (change & Hchange & H).
    apply bind_ok in H as (a & Ha & _).
    assert (Hlen : length a = len df).
    { by rewrite (mapM_length _ _ _ Ha), (getitem_length _ _ _ Hwf Hchange). }
    exists a. split; [done|]. intros m Hm. simpl.
    unfold filter_by_decile_criteria.
    destruct (empty (select_rows df m)) eqn:Hsub.
    - by rewrite (empty_selection df m a).
    - rewrite H0, H1, H2, H3, H4.
      rewrite (getitem_select_rows _ _ _ _ Hchange). cbn.
      rewrite (mapM_keep _ _ _ _ Ha). cbn.
      by rewrite select_rows_select_rows. }
  eexists. apply passes_selects. intros m. simpl.
  unfold filter_by_decile_criteria. rewrite H0, H1, H2, H3, H4.
  by destruct (empty (select_rows df m)).
Qed.

Lemma column_filter_selects (f : filter_call) (df out : DataFrame) :
  wf df → column_filter f → apply_filter f df = Ok out →
  ∃ mf, selects f df mf.
Proof.
  intros Hwf Hf H. destruct f; simpl in *; [..|done].
  - by eapply region_selects.
  - by eapply sector_selects.
  - by eapply date_range_selects.
  - by eapply decile_selects.
Qed.

(** The filters of [fs] that succeed on [df] one at a time succeed one
    after the other on every selection of rows of [df]. *)
Definition each_succeeds (fs : list filter_call) (df : DataFrame) : Prop :=
  Forall (fun f => column_filter f ∧ ∃ out, apply_filter f df = Ok out) fs.

Lemma zip_with_andb_assoc (a b c : list bool) :
  zip_with andb (zip_with andb a b) c = zip_with andb a (zip_with andb b c).
Proof.
  revert b c. induction a as [|x a IH]; intros [|y b] [|z c]; simpl; try done.
  by rewrite IH, andb_assoc.
Qed.

Lemma zip_with_andb_swap (a b c : list bool) :
  zip_with andb (zip_with andb a b) c = zip_with andb (zip_with andb a c) b.
Proof.
  revert b c. induction a as [|x a IH]; intros [|y b] [|z c]; simpl; try done.
  rewrite IH. f_equal. destruct x, y, z; done.
Qed.

Lemma filters_on_selection (fs fs' : list filter_call) (df : DataFrame) :
  wf df → each_succeeds fs df → fs ≡ₚ fs' →
  ∀ m, length m = len df →
    apply_filters fs (select_rows df m) = apply_filters fs' (select_rows df m)
    ∧ ∃ mask, length mask = len df
              ∧ apply_filters fs (select_rows df m) = Ok (select_rows df mask).
Proof.
  intros Hwf Hall Hperm. induction Hperm as [|f fs fs' Hp IH|f g fs|fs fs' fs'' Hp1 IH1 Hp2 IH2];
    intros m Hm.
  - split; [done|]. exists m. done.
  - apply Forall_cons in Hall as [[Hf [out Hout]] Hall].
    destruct (column_filter_selects f df out Hwf Hf Hout) as (mf & Hmf & Hsel).
    simpl. rewrite (Hsel m Hm). cbn.
    apply IH; [done|]. rewrite length_zip_with. lia.
  - apply Forall_cons in Hall as [[Hg [outg Houtg]] Hall].
    apply Forall_cons in Hall as [[Hf [outf Houtf]] Hall].
    destruct (column_filter_selects f df outf Hwf Hf Houtf) as (mf & Hmf & Hself).
    destruct (column_filter_selects g df outg Hwf Hg Houtg) as (mg & Hmg & Hselg).
    assert (Hlf : length (zip_with andb m mf) = len df)
      by (rewrite length_zip_with; lia).
    assert (Hlg : length (zip_with andb m mg) = len df)
      by (rewrite length_zip_with; lia).
    simpl. rewrite (Hself m Hm), (Hselg m Hm). cbn.
    rewrite (Hself _ Hlg), (Hselg _ Hlf). cbn.
    rewrite (zip_with_andb_swap m mg mf). split; [done|].
    assert (Hl : length (zip_with andb (zip_with andb m mf) mg) = len df)
      by (rewrite length_zip_with; lia).
    clear Hself Hselg Hlf Hlg Houtf Houtg.
    revert Hl. generalize (zip_with andb (zip_with andb m mf) mg).
    induction Hall as [|h fs [Hh [outh Houth]] _ IHfs]; intros m' Hm'.
    + exists m'. done.
    + destruct (column_filter_selects h df outh Hwf Hh Houth) as (mh & Hmh & Hselh).
      simpl. rewrite (Hselh m' Hm'). cbn. apply IHfs.
      rewrite length_zip_with. lia.
  - assert (Hall' : each_succeeds fs' df).
    { unfold each_succeeds. by rewrite <- Hp1. }
    destruct (IH1 Hall m Hm) as [E1 (mask & Hmask & Hrun)].
    destruct (IH2 Hall' m Hm) as [E2 _].
    split; [congruence|]. eauto.
Qed.

(** The positive side of the order of the filters.  On a table where the
    region, sector, date-range and decile-movement filters of a list each
    succeed when applied alone, applying them one after the other succeeds
    too, and every order of the list returns the same table. *)
Theorem column_filters_commute (fs fs' : list filter_call)
    (df : DataFrame) :
  wf df →
  each_succeeds fs df →
  fs ≡ₚ fs' →
  apply_filters fs df = apply_filters fs' df
  ∧ ∃ out, apply_filters fs df = Ok out.
Proof.
  intros Hwf Hall Hperm.
  destruct (filters_on_selection fs fs' df Hwf Hall Hperm
              (replicate (len df) true) (length_replicate _ _))
    as [E (mask & _ & Hrun)].
  rewrite select_rows_all in E, Hrun by done.
  split; [done|eauto].
Qed.

Lemma column_filters_commute_witness :
  apply_filters
    [ByRegion "Japan"; ByDecile "Moving +5 Deciles";
     ByDateRange (mk_datetime 2025 6 1 0) (mk_datetime 2026 6 1 0);
     BySector "Industrials"]
    dataset_two_regions
  = apply_filters
      [BySector "Industrials"; ByRegion "Japan";
       ByDateRange (mk_datetime 2025 6 1 0) (mk_datetime 2026 6 1 0);
       ByDecile "Moving +5 Deciles"]
      dataset_two_regions.
Proof.
  apply (column_filters_commute
           [ByRegion "Japan"; ByDecile "Moving +5 Deciles";
            ByDateRange (mk_datetime 2025 6 1 0) (mk_datetime 2026 6 1 0);
            BySector "Industrials"]
           [BySector "Industrials"; ByRegion "Japan";
            ByDateRange (mk_datetime 2025 6 1 0) (mk_datetime 2026 6 1 0);
            ByDecile "Moving +5 Deciles"]
           dataset_two_regions).
  - unfold wf, len. simpl. repeat (apply Forall_cons; split; [reflexivity|]).
    apply Forall_nil_2.
  - repeat (apply Forall_cons; split;
            [split; [exact I | eexists; vm_compute; reflexivity]|]).
    apply Forall_nil_2.
  - etransitivity; [do 2 apply perm_skip; apply perm_swap|].
    etransitivity; [apply perm_skip; apply perm_swap|].
    etransitivity; [apply perm_swap|].
    do 2 apply perm_skip. apply perm_swap.
Defined.

(* ================================================================== *)
(** * Filter engine: the search on freshly numbered rows            *)
(* ================================================================== *)

(** A cell [.astype(str)] converts within the embedded fragment. *)
Definition textual (c : cell) : Prop :=
  match c with
  | Str _ | NaN => True
  | Num _ | Stamp _ => False
  end.

(** The text a textual cell reads as once converted. *)
Definition shown (c : cell) : string :=
  match c with
  | Str s => s
  | _ => "nan"
  end.

(** The test of the search on one cell. *)
Definition hit (pat : string) (c : cell) : bool :=
  str_in pat (lower (shown c)).

Lemma lower_contains_textual (pat : string) (col : list cell) :
  regex_literal pat = true → Forall textual col →
  lower_contains pat col = Ok (map (hit pat) col).
Proof.
  intros Hpat Hcol. unfold lower_contains.
  rewrite (mapM_ok astype_str shown).
  - cbn. rewrite Hpat. by rewrite map_map.
  - eapply Forall_impl; [exact Hcol|]. by intros [].
Qed.

Lemma zip_with_orb_none (n : nat) (m : list bool) :
  length m = n → zip_with orb (replicate n false) m = m.
Proof.
  revert m. induction n as [|n IH]; intros [|b m] H; simpl in *; try done.
  f_equal. apply IH. lia.
Qed.

(** On rows numbered 0, 1, ..., n-1 the masks of the two columns are
    combined position by position; a missing cell is tested as the text it
    is converted to. *)
Lemma search_positional (df : DataFrame) (search_term : string)
    (ticker name : list cell)
    (Hwf : wf df)
    (Hindex : index df = seq 0 (len df))
    (Hrows : empty df = false)
    (Hterm : search_term ≠ EmptyString)
    (Hliteral : regex_literal (strip (lower search_term)) = true)
    (Hticker : getitem df "Ticker" = Ok ticker)
    (Hname : getitem df "Company Name" = Ok name)
    (Htickers : Forall textual ticker)
    (Hnames : Forall textual name) :
  filter_by_search df search_term
  = Ok (select_rows df
          (zip_with orb (map (hit (strip (lower search_term))) ticker)
                        (map (hit (strip (lower search_term))) name))).
Proof.
  unfold filter_by_search. rewrite Hrows.
  rewrite bool_decide_eq_false_2 by done. simpl.
  rewrite (getitem_ok_has_column _ _ _ Hticker),
    (getitem_ok_has_column _ _ _ Hname), Hticker, Hname.
  cbn. rewrite (lower_contains_textual _ ticker) by done. cbn.
  rewrite (lower_contains_textual _ name) by done. cbn.
  unfold series_or at 2. simpl.
  rewrite bool_decide_eq_true_2 by done.
  rewrite zip_with_orb_none
    by (rewrite length_map; by apply getitem_length with "Ticker").
  unfold series_or. simpl. rewrite bool_decide_eq_true_2 by done.
  unfold getitem_bool. simpl. by rewrite bool_decide_eq_true_2.
Qed.

(** On a table whose rows are numbered 0, 1, ..., n-1, as the merged
    dataset is after a sync, and whose Ticker and Company Name cells are
    all texts, the search keeps exactly the rows whose ticker or company
    name contains the term, letter case and the blanks around the term set
    aside. *)
Theorem search_on_fresh_index (df : DataFrame) (search_term : string)
    (tickers names : list string)
    (Hwf : wf df)
    (Hindex : index df = seq 0 (len df))
    (Hrows : empty df = false)
    (Hterm : search_term ≠ EmptyString)
    (Hliteral : regex_literal (strip (lower search_term)) = true)
    (Hticker : getitem df "Ticker" = Ok (map Str tickers))
    (Hname : getitem df "Company Name" = Ok (map Str names)) :
  filter_by_search df search_term
  = Ok (select_rows df
          (zip_with
             (fun ticker name =>
                str_in (strip (lower search_term)) (lower ticker)
                || str_in (strip (lower search_term)) (lower name))
             tickers names)).
Proof.
  rewrite (search_positional df search_term (map Str tickers) (map Str names))
    by (try done; apply Forall_map, Forall_true; done).
  do 2 f_equal. rewrite !map_map. clear.
  revert names. induction tickers as [|t tickers IH]; intros [|n names];
    simpl; try done.
  by rewrite IH.
Qed.

Lemma search_on_fresh_index_witness :
  filter_by_search dataset_two_regions " Toyota "
  = Ok (select_rows dataset_two_regions
          (zip_with
             (fun ticker name =>
                str_in (strip (lower " Toyota ")) (lower ticker)
                || str_in (strip (lower " Toyota ")) (lower name))
             ["AAPL"; "TM"] ["Apple Inc"; "Toyota Motor"])).
Proof.
  apply (search_on_fresh_index dataset_two_regions " Toyota ").
  - unfold wf, len. simpl. repeat (apply Forall_cons; split; [reflexivity|]).
    apply Forall_nil_2.
  - reflexivity.
  - reflexivity.
  - discriminate.
  - vm_compute. reflexivity.
  - vm_compute. reflexivity.
  - vm_compute. reflexivity.
Defined.

(* ================================================================== *)
(** * Time period                                                   *)
(* ================================================================== *)

(** The number of months a period label stands for; "Custom" and every
    other label count as twelve. *)
Definition period_months (period : string) : Z :=
  if bool_decide (period = "3 Months") then 3
  else if bool_decide (period = "6 Months") then 6
  else if bool_decide (period = "9 Months") then 9
  else 12.

Lemma days_in_month_ge (y m : Z) : 1 <= m <= 12 → 28 <= days_in_month y m.
Proof.
  intros H. unfold days_in_month.
  destruct m as [|p|p]; try lia.
  do 4 (try (destruct p as [p|p|]; try lia));
    destruct (is_leap y); lia.
Qed.

Lemma datetime_sub_months (now : datetime) (n : Z) :
  n = 3 ∨ n = 6 ∨ n = 9 ∨ n = 12 →
  valid_date (year now) (month now) (day now) = true →
  2 <= year now →
  ∃ start,
    datetime_sub now (relativedelta_new 0 n) = Some start
    ∧ valid_date (year start) (month start) (day start) = true
    ∧ tod start = tod now
    ∧ year now * 12 + month now - (year start * 12 + month start) = n
    ∧ day start = Z.min (day now) (days_in_month (year start) (month start)).
Proof.
  intros Hn Hvalid Hyear. unfold valid_date in Hvalid.
  repeat (apply andb_true_iff in Hvalid as [Hvalid ?]).
  assert (Hm : 1 <= month now <= 12) by lia.
  assert (Hd : 1 <= day now) by lia.
  assert (Hy : year now <= 9999) by lia.
  unfold datetime_sub, relativedelta_radd.
  assert (Hstep : ∀ y m,
            1 <= y <= 9999 → 1 <= m <= 12 →
            year now * 12 + month now - (y * 12 + m) = n →
            ∃ start,
              (let d := Z.min (days_in_month y m) (day now) in
               if valid_date y m d
               then Some (mk_datetime y m d (tod now)) else None)
              = Some start
              ∧ valid_date (year start) (month start) (day start) = true
              ∧ tod start = tod now
              ∧ year now * 12 + month now
                - (year start * 12 + month start) = n
              ∧ day start
                = Z.min (day now) (days_in_month (year start) (month start))).
  { intros y m Hy' Hm' Hdist. cbv zeta.
    pose proof (days_in_month_ge y m Hm') as Hge.
    assert (Hv : valid_date y m (Z.min (days_in_month y m) (day now)) = true).
    { unfold valid_date. repeat (apply andb_true_iff; split); lia. }
    rewrite Hv. eexists. split; [reflexivity|]. simpl.
    repeat split; [done|done|lia]. }
  assert (Hneg : ∃ k, 1 <= k <= 11 ∧
            (relativedelta_neg (relativedelta_new 0 n)
             = mk_relativedelta 0 (- k) ∧ n = k
             ∨ relativedelta_neg (relativedelta_new 0 n)
               = mk_relativedelta (-1) 0 ∧ n = 12)).
  { destruct Hn as [-> | [-> | [-> | ->]]];
      [exists 3|exists 6|exists 9|exists 1]; (split; [lia|]);
      first [left; split; [reflexivity|lia] | right; split; [reflexivity|lia]]. }
  destruct Hneg as (k & Hk & [[-> ->]|[-> ->]]); cbn [rd_years rd_months].
  - destruct (Z.eqb_spec (- k) 0) as [?|_]; [lia|].
    destruct (Z.ltb_spec 12 (month now + - k)) as [?|_]; [lia|].
    destruct (Z.ltb_spec (month now + - k) 1); apply Hstep; lia.
  - simpl (0 =? 0). cbv iota. apply Hstep; lia.
Qed.

(** Every period label gives a window that ends now and starts a whole
    number of calendar months before it (3, 6 or 9, and 12 for every other
    label), at the same time of day and on the same day of the month, cut
    to the length of the month reached.  The start is a date of the
    calendar and is not after the end. *)
Theorem period_window (period : string) (now : datetime)
    (Hvalid : valid_date (year now) (month now) (day now) = true)
    (Hyear : 2 <= year now) :
  ∃ start_date,
    get_date_range_from_period period now = Some (start_date, now)
    ∧ valid_date (year start_date) (month start_date) (day start_date) = true
    ∧ datetime_leb start_date now = true
    ∧ tod start_date = tod now
    ∧ year now * 12 + month now
      - (year start_date * 12 + month start_date) = period_months period
    ∧ day start_date
      = Z.min (day now)
          (days_in_month (year start_date) (month start_date)).
Proof.
  destruct (datetime_sub_months now (period_months period))
    as (start & Hsub & Hv & Ht & Hdist & Hday); [|done|done|].
  { unfold period_months. repeat case_bool_decide; auto. }
  exists start. split; [|split; [done|split; [|done]]].
  - unfold get_date_range_from_period, period_months in *.
    repeat case_bool_decide; by rewrite Hsub.
  - assert (Hpos : 3 <= period_months period)
      by (unfold period_months; repeat case_bool_decide; lia).
    unfold valid_date in Hv, Hvalid.
    repeat (apply andb_true_iff in Hv as [Hv ?]).
    repeat (apply andb_true_iff in Hvalid as [Hvalid ?]).
    unfold datetime_leb.
    destruct (year start <? year now) eqn:Ey; [done|]. simpl.
    assert (year start = year now) as Eq by lia.
    rewrite Eq, Z.eqb_refl. simpl.
    assert ((month start <? month now) = true) as -> by lia. done.
Qed.

Lemma period_window_witness :
  ∃ start_date,
    get_date_range_from_period "3 Months" (mk_datetime 2024 5 31 43200000000)
    = Some (start_date, mk_datetime 2024 5 31 43200000000)
    ∧ valid_date (year start_date) (month start_date) (day start_date) = true
    ∧ datetime_leb start_date (mk_datetime 2024 5 31 43200000000) = true
    ∧ tod start_date = 43200000000
    ∧ 2024 * 12 + 5 - (year start_date * 12 + month start_date) = 3
    ∧ day start_date
      = Z.min 31 (days_in_month (year start_date) (month start_date)).
Proof.
  apply (period_window "3 Months" (mk_datetime 2024 5 31 43200000000)).
  - reflexivity.
  - simpl. lia.
Defined.

(** May 31 at noon, three months back: February 29 of the leap year. *)
Example period_three_months_from_may_31 :
  get_date_range_from_period "3 Months" (mk_datetime 2024 5 31 43200000000)
  = Some (mk_datetime 2024 2 29 43200000000,
          mk_datetime 2024 5 31 43200000000).
Proof. vm_compute. reflexivity. Qed.

(* ================================================================== *)
(** * Filter engine: a filter applied twice                         *)
(* ================================================================== *)

Lemma zip_with_andb_diag (m : list bool) : zip_with andb m m = m.
Proof. induction m as [|b m IH]; [done|]. simpl. by rewrite IH, andb_diag. Qed.

(** The region, sector, date-range and decile-movement filters are
    idempotent: applied to its own result, a filter succeeds and changes
    nothing. *)
Theorem column_filter_idempotent (f : filter_call) (df out : DataFrame) :
  wf df → column_filter f →
  apply_filter f df = Ok out →
  apply_filter f out = Ok out.
Proof.
  intros Hwf Hf H.
  destruct (column_filter_selects f df out Hwf Hf H) as (mf & Hlen & Hsel).
  pose proof (Hsel (replicate (len df) true) (length_replicate _ _)) as Hall.
  rewrite select_rows_all, zip_with_andb_all_l in Hall by done.
  rewrite H in Hall. injection Hall as ->.
  by rewrite (Hsel mf Hlen), zip_with_andb_diag.
Qed.

Lemma column_filter_idempotent_witness :
  apply_filter (ByDecile "Moving +5 Deciles")
    (select_rows dataset_two_regions [false; true])
  = Ok (select_rows dataset_two_regions [false; true]).
Proof.
  apply (column_filter_idempotent (ByDecile "Moving +5 Deciles")
           dataset_two_regions).
  - unfold wf, len. simpl. repeat (apply Forall_cons; split; [reflexivity|]).
    apply Forall_nil_2.
  - exact I.
  - vm_compute. reflexivity.
Defined.

(* ================================================================== *)
(** * Enriched files under the region filter                        *)
(* ================================================================== *)

Section EnrichedRegion.

Implicit Types (df : DataFrame) (c : string) (v : list cell).

Lemma filter_header_once df c :
  NoDup (columns df) →
  (length (filter (fun p => p.1 = c) (data df)) ≤ 1)%nat.
Proof.
  unfold columns. induction (data df) as [|p d IH]; intros Hnd; [simpl; lia|].
  simpl in Hnd. apply NoDup_cons in Hnd as [Hp Hd].
  rewrite filter_cons. destruct (decide (p.1 = c)) as [E|E].
  - rewrite filter_header_nil by (by rewrite <- E). simpl. lia.
  - auto.
Qed.

Lemma filter_header_replace c v (d : list (string * list cell)) :
  filter (fun p => p.1 = c)
    (map (fun p => if bool_decide (p.1 = c) then (c, v) else p) d)
  = map (fun _ => (c, v)) (filter (fun p => p.1 = c) d).
Proof.
  induction d as [|p d IH]; [done|].
  simpl. rewrite !filter_cons. case_bool_decide as Hp; simpl.
  - rewrite !decide_True by done. simpl. by rewrite IH.
  - rewrite !decide_False by done. done.
Qed.

Lemma getitem_setitem_same df c v :
  (length (filter (fun p => p.1 = c) (data df)) ≤ 1)%nat →
  getitem (setitem df c v) c = Ok v.
Proof.
  intros Honce. destruct (has_column df c) eqn:Hc;
    [|by apply getitem_setitem_new].
  unfold getitem, setitem. rewrite Hc. simpl. rewrite filter_header_replace.
  destruct (filter (fun p => p.1 = c) (data df)) as [|p [|q l]] eqn:E;
    simpl in *; [|done|lia].
  apply has_column_true in Hc. unfold columns in Hc.
  apply list_elem_of_fmap in Hc as (p & Hp & Hin).
  assert (p ∈ filter (fun p => p.1 = c) (data df))
    by (apply list_elem_of_filter; done).
  rewrite E in H. by apply elem_of_nil in H.
Qed.

Lemma canonical_name_region (h : string) :
  canonical_name h = "Region" ↔ h = "Region".
Proof.
  split; [|by intros ->].
  unfold canonical_name.
  destruct (column_mappings !! strip (lower h)) as [std|] eqn:E; [|done].
  simpl. intros ->. exfalso.
  apply elem_of_list_to_map_2 in E.
  assert (Hall : Forall (fun kv => kv.2 ≠ "Region") COLUMN_ITEMS).
  { unfold COLUMN_ITEMS.
    repeat (apply Forall_cons; split; [discriminate|]). apply Forall_nil_2. }
  rewrite Forall_forall in Hall. by apply (Hall _ E).
Qed.

Lemma region_header_once df :
  NoDup (columns df) →
  (length (filter (fun p => p.1 = "Region")
             (data (standardize_column_names df))) ≤ 1)%nat.
Proof.
  intros Hnd. rewrite standardize_data. simpl.
  pose proof (filter_header_once df "Region" Hnd) as Honce.
  replace (filter (fun p => p.1 = "Region")
             (map (fun p => (canonical_name p.1, p.2)) (data df)))
    with (map (fun p : string * list cell => (canonical_name p.1, p.2))
            (filter (fun p => p.1 = "Region") (data df))).
  { by rewrite length_map. }
  clear. induction (data df) as [|p d IH]; [done|].
  rewrite map_cons, !filter_cons. cbn [fst snd].
  destruct (decide (p.1 = "Region")) as [E|E].
  - rewrite decide_True by (by apply canonical_name_region).
    by rewrite map_cons, IH.
  - by rewrite decide_False by (by rewrite canonical_name_region).
Qed.

Lemma stamped_region df region file_date now :
  NoDup (columns df) →
  getitem (stamped df region file_date now) "Region"
  = Ok (replicate (len df) (Str region)).
Proof.
  intros Hnd. unfold stamped, setitem_scalar at 1.
  rewrite getitem_setitem_ne by done. unfold setitem_scalar.
  rewrite getitem_setitem_same by (by apply region_header_once).
  by rewrite len_standardize.
Qed.

Lemma wf_stamped df region file_date now :
  wf df → wf (stamped df region file_date now).
Proof.
  intros Hwf. unfold stamped, setitem_scalar.
  apply wf_setitem; [|by rewrite length_replicate].
  apply wf_setitem; [|by rewrite length_replicate].
  by apply wf_standardize.
Qed.

Lemma len_stamped df region file_date now :
  len (stamped df region file_date now) = len df.
Proof.
  unfold stamped, setitem_scalar. by rewrite !len_setitem, len_standardize.
Qed.

Lemma series_sub_length (cur prev change : list cell) :
  series_sub cur prev = Ok change →
  length change = Nat.min (length cur) (length prev).
Proof.
  unfold series_sub. intros H.
  destruct (existsb is_stamp cur || existsb is_stamp prev); [done|].
  cbv zeta in H. destruct (numbers _ cur && numbers _ prev); [|done].
  apply mapM_length in H. by rewrite H, length_zip.
Qed.

(** What the enricher returns for a table with rows. *)
Lemma process_file_data_out df out region file_date now :
  wf df → NoDup (columns df) →
  process_file_data (Some df) region file_date now = Ok (Some out) →
  wf out ∧ len out = len df ∧ empty out = false
  ∧ getitem out "Region" = Ok (replicate (len df) (Str region)).
Proof.
  intros Hwf Hnd H.
  destruct (empty df) eqn:He;
    [by rewrite process_file_data_nothing in H|].
  rewrite process_file_data_run in H by done. cbv zeta in H.
  pose proof (wf_stamped df region file_date now Hwf) as Hwf2.
  pose proof (len_stamped df region file_date now) as Hlen2.
  pose proof (stamped_region df region file_date now Hnd) as Hreg.
  assert (Hfull : ∀ o, len o = len df →
            getitem o "Region" = Ok (replicate (len df) (Str region)) →
            empty o = false).
  { intros o Hlo Hro. unfold empty, len in *.
    destruct (index df) eqn:Ei; [done|].
    destruct (index o); [done|]. simpl.
    apply getitem_ok_has_column, has_column_true in Hro.
    unfold columns in Hro. destruct (data o); [|done].
    by apply elem_of_nil in Hro. }
  destruct (negb (has_column (stamped df region file_date now) "Decile Change")
            && has_column (stamped df region file_date now) "Current Decile"
            && has_column (stamped df region file_date now) "Previous Decile").
  - apply bind_ok in H as (cur & Hcur & H).
    apply bind_ok in H as (prev & Hprev & H).
    apply bind_ok in H as (change & Hchange & [= <-]).
    assert (Hlc : length change = len (stamped df region file_date now)).
    { rewrite (series_sub_length _ _ _ Hchange),
        (getitem_length _ _ _ Hwf2 Hcur), (getitem_length _ _ _ Hwf2 Hprev).
      lia. }
    assert (Hr : getitem (setitem (stamped df region file_date now)
                            "Decile Change" change) "Region"
                 = Ok (replicate (len df) (Str region)))
      by (by rewrite getitem_setitem_ne).
    assert (Hl : len (setitem (stamped df region file_date now)
                        "Decile Change" change) = len df)
      by (by rewrite len_setitem).
    split; [by apply wf_setitem|]. split; [done|]. split; [|done].
    by apply Hfull.
  - injection H as <-. split; [done|]. split; [done|]. split; [|done].
    by apply Hfull.
Qed.

Lemma eq_str_replicate (choice region : string) (n : nat) :
  mapM (eq_str choice) (replicate n (Str region))
  = Ok (replicate n (bool_decide (region = choice))).
Proof.
  induction n as [|n IH]; [done|].
  cbn [replicate]. rewrite mapM_cons, IH. done.
Qed.

End EnrichedRegion.

(** The rows of one enriched file under the region filter: a region other
    than "All Regions" keeps all of them when it is the region the file was
    given and none of them otherwise.  A file the classifier leaves
    "Unclassified" is therefore shown under "All Regions" only: no other
    option of the selector returns a row of it. *)
Theorem enriched_file_by_region (df out : DataFrame)
    (region choice : string) (file_date : option datetime) (now : datetime) :
  wf df → NoDup (columns df) →
  process_file_data (Some df) region file_date now = Ok (Some out) →
  choice ≠ "All Regions" →
  filter_by_region out choice
  = Ok (if bool_decide (region = choice) then out else no_rows out)
  ∧ (region = "Unclassified" → choice ∈ REGION_OPTIONS →
     filter_by_region out choice = Ok (no_rows out)).
Proof.
  intros Hwf Hnd Hrun Hopt.
  destruct (process_file_data_out df out region file_date now Hwf Hnd Hrun)
    as (Hwfo & Hlen & Hfull & Hreg).
  assert (Hmain : filter_by_region out choice
                  = Ok (if bool_decide (region = choice)
                        then out else no_rows out)).
  { unfold filter_by_region.
    rewrite Hfull, (getitem_ok_has_column _ _ _ Hreg), Hreg.
    rewrite bool_decide_eq_false_2 by done. cbn.
    rewrite eq_str_replicate. cbn. rewrite <- Hlen.
    destruct (bool_decide (region = choice)); [|done].
    by rewrite select_rows_all. }
  split; [done|]. intros -> Hin. rewrite Hmain.
  rewrite bool_decide_eq_false_2; [done|].
  intros <-. unfold REGION_OPTIONS in Hin.
  repeat (apply elem_of_cons in Hin as [Hin|Hin]; [discriminate|]).
  by apply elem_of_nil in Hin.
Qed.

Lemma enriched_file_by_region_witness :
  filter_by_region
    (mk_frame [0%nat; 1%nat]
       [ ("Ticker", [Str "AAPL"; Str "F"]);
         ("Region", [Str "Unclassified"; Str "Unclassified"]);
         ("File Date", [Stamp (mk_datetime 2026 1 8 0);
                        Stamp (mk_datetime 2026 1 8 0)]) ])
    "US"
  = Ok (no_rows
          (mk_frame [0%nat; 1%nat]
             [ ("Ticker", [Str "AAPL"; Str "F"]);
               ("Region", [Str "Unclassified"; Str "Unclassified"]);
               ("File Date", [Stamp (mk_datetime 2026 1 8 0);
                              Stamp (mk_datetime 2026 1 8 0)]) ])).
Proof.
  apply (enriched_file_by_region
           (mk_frame [0%nat; 1%nat] [("Symbol", [Str "AAPL"; Str "F"])])
           _ "Unclassified" "US" None (mk_datetime 2026 1 8 0)).
  - unfold wf, len. simpl. repeat (apply Forall_cons; split; [reflexivity|]).
    apply Forall_nil_2.
  - unfold columns. simpl. apply NoDup_singleton.
  - vm_compute. reflexivity.
  - discriminate.
  - reflexivity.
  - unfold REGION_OPTIONS. in_list.
Defined.

(* ================================================================== *)
(** * Regions of the classifier and options of the selectors        *)
(* ================================================================== *)

(** Whatever the filename, the region the classifier returns can be
    selected: it is one of [REGION_OPTIONS[1:] + ["Unclassified"]], the
    choices of the file list, and unless it is "Unclassified" it is an
    option of the region filter of the stock data.  It is never one of the
    labels "All Regions" and "All" that stand for no filter. *)
Theorem classifier_result_is_selectable (filename : string) :
  extract_region_from_filename filename
    ∈ tail REGION_OPTIONS ++ ["Unclassified"]
  ∧ (extract_region_from_filename filename ≠ "Unclassified" →
     extract_region_from_filename filename ∈ REGION_OPTIONS)
  ∧ extract_region_from_filename filename ≠ "All Regions"
  ∧ extract_region_from_filename filename ≠ "All".
Proof.
  assert (H : extract_region_from_filename filename
              ∈ ["US"; "Europe"; "UK"; "APAC Ex Japan"; "Japan"; "China";
                 "Global"; "Global Ex US"; "Unclassified"]).
  { unfold extract_region_from_filename.
    repeat (match goal with |- context [if ?b then _ else _] =>
              destruct b end; [in_list|]).
    destruct (first_region REGION_MAPPINGS (lower filename)) as [r|] eqn:E;
      [|in_list].
    apply first_region_in_table in E. simpl in E.
    repeat (apply elem_of_cons in E as [->|E]; [in_list|]).
    by apply elem_of_nil in E. }
  revert H. generalize (extract_region_from_filename filename). intros r H.
  repeat (apply elem_of_cons in H as [->|H];
          [split; [unfold REGION_OPTIONS; simpl; in_list|];
           split; [intros ?; try done; unfold REGION_OPTIONS; in_list|];
           split; discriminate|]).
  by apply elem_of_nil in H.
Qed.
